(** * wallet_integration.py: the response-to-table formatters and the
      workflow driver of the vaults.fyi SDK example

    A shallow embedding of [src/wallet_integration.py].  Python values
    are the JSON-shaped values the SDK client hands to the formatters;
    an operation that can raise returns a [result]; [for] loops thread
    the table they append to.  The table renderer ([tabulate]) and
    [repr] of non-string values belong to libraries outside the file
    and are parameters of the development. *)

From Stdlib Require Import ZArith List String Ascii Bool Lia.
From Stdlib Require Import Floats.SpecFloat DecimalString.
Import ListNotations.

Set Warnings "-register-all".

Open Scope string_scope.
Open Scope Z_scope.

(** ** Python values and exceptions *)

Module Py.

(** Binary64 floats are the Standard Library's specification floats
    at precision 53 and maximal exponent 1024. *)
Definition float := spec_float.

(** A dict keeps insertion order, which [items()] exposes; its keys are
    strings, as in parsed JSON.  A str is a sequence of characters. *)
Inductive value : Type :=
| VNone
| VBool (b : bool)
| VInt (z : Z)
| VFloat (f : float)
| VStr (s : string)
| VList (l : list value)
| VDict (d : list (string * value)).

Inductive exn : Type :=
| AttributeError
| TypeError
| ValueError
| OverflowError
| KeyError
| IndexError
| ClientError (msg : string).

Inductive result (A : Type) : Type :=
| Ok (a : A)
| Raise (e : exn).

Arguments Ok {A} a.
Arguments Raise {A} e.

Definition bind {A B} (c : result A) (k : A -> result B) : result B :=
  match c with
  | Ok a => k a
  | Raise e => Raise e
  end.


Declare Scope py_scope.
Delimit Scope py_scope with py.
Notation "x <- c ;; k" := (bind c (fun x => k))
  (at level 61, c at next level, right associativity) : py_scope.
Open Scope py_scope.

(** [for x in l: body], the loop body updating the state [s]. *)
Fixpoint for_each {A St : Type} (l : list A) (body : A -> St -> result St)
    (s : St) : result St :=
  match l with
  | [] => Ok s
  | x :: l' => s' <- body x s ;; for_each l' body s'
  end.

(** [for i, x in enumerate(l): body], [i] counting from [start]. *)
Fixpoint for_enumerate {A St : Type} (start : nat) (l : list A)
    (body : nat -> A -> St -> result St) (s : St) : result St :=
  match l with
  | [] => Ok s
  | x :: l' => s' <- body start x s ;; for_enumerate (S start) l' body s'
  end.

(** *** Truth value, type tests, dict access *)

Definition truthy (v : value) : bool :=
  match v with
  | VNone => false
  | VBool b => b
  | VInt z => negb (z =? 0)
  | VFloat (S754_zero _) => false
  | VFloat _ => true
  | VStr s => negb (s =? "")%string
  | VList l => match l with [] => false | _ => true end
  | VDict d => match d with [] => false | _ => true end
  end.

Definition is_dict (v : value) : bool :=
  match v with VDict _ => true | _ => false end.

Definition is_list (v : value) : bool :=
  match v with VList _ => true | _ => false end.

Definition is_str (v : value) : bool :=
  match v with VStr _ => true | _ => false end.

Definition is_none (v : value) : bool :=
  match v with VNone => true | _ => false end.

(** [v == ""] *)
Definition eq_empty_str (v : value) : bool :=
  match v with VStr s => (s =? "")%string | _ => false end.

Fixpoint lookup (k : string) (d : list (string * value)) : option value :=
  match d with
  | [] => None
  | (k', v) :: d' => if (k =? k')%string then Some v else lookup k d'
  end.

(** [obj.get(key, default)]: only a dict has the method. *)
Definition get (obj : value) (key : string) (default : value) : result value :=
  match obj with
  | VDict d => Ok (match lookup key d with Some v => v | None => default end)
  | _ => Raise AttributeError
  end.

(** [obj.items()] *)
Definition items (obj : value) : result (list (string * value)) :=
  match obj with
  | VDict d => Ok d
  | _ => Raise AttributeError
  end.

(** [key in d and isinstance(d[key], list)], for a dict [d]; the list. *)
Definition lookup_list (k : string) (d : list (string * value)) : option (list value) :=
  match lookup k d with
  | Some (VList l) => Some l
  | _ => None
  end.

Definition chars (s : string) : list value :=
  map (fun c => VStr (String c "")) (list_ascii_of_string s).

(** The sequence a [for] loop walks: the elements of a list, the
    characters of a str, the keys of a dict. *)
Definition iter (v : value) : result (list value) :=
  match v with
  | VList l => Ok l
  | VStr s => Ok (chars s)
  | VDict d => Ok (map (fun kv => VStr (fst kv)) d)
  | _ => Raise TypeError
  end.

Definition len (v : value) : result Z :=
  match v with
  | VStr s => Ok (Z.of_nat (String.length s))
  | VList l => Ok (Z.of_nat (List.length l))
  | VDict d => Ok (Z.of_nat (List.length d))
  | _ => Raise TypeError
  end.

(** [v[i]] for a non-negative literal index [i]; a dict with str keys
    has no int key. *)
Definition index (v : value) (i : nat) : result value :=
  match v with
  | VList l => match nth_error l i with Some x => Ok x | None => Raise IndexError end
  | VStr s => match String.get i s with
              | Some c => Ok (VStr (String c ""))
              | None => Raise IndexError
              end
  | VDict _ => Raise KeyError
  | _ => Raise TypeError
  end.

(** *** Slices and concatenation *)

Fixpoint str_take (n : nat) (s : string) : string :=
  match n, s with
  | O, _ => ""
  | S n', String c s' => String c (str_take n' s')
  | S _, EmptyString => ""
  end.

(** The number of items [x[:stop]] keeps of a sequence of length [n]:
    a negative [stop] counts from the end. *)
Definition slice_stop (n : nat) (stop : Z) : nat :=
  if stop <? 0 then Z.to_nat (Z.of_nat n + stop)
  else Z.to_nat stop.

(** [v[:stop]]; subscripting a dict with a slice raises. *)
Definition slice_to (v : value) (stop : Z) : result value :=
  match v with
  | VStr s => Ok (VStr (str_take (slice_stop (String.length s) stop) s))
  | VList l => Ok (VList (firstn (slice_stop (List.length l) stop) l))
  | _ => Raise TypeError
  end.

(** [v + '<literal>']: defined for a str [v] only. *)
Definition concat_str (v : value) (suffix : string) : result value :=
  match v with
  | VStr s => Ok (VStr (s ++ suffix))
  | _ => Raise TypeError
  end.

(** *** Decimal numerals *)

Definition dec (n : N) : string := NilZero.string_of_uint (N.to_uint n).

Fixpoint zeros (n : nat) : string :=
  match n with
  | O => ""
  | S n' => String "0" (zeros n')
  end.

(** [n] written with at least [width] digits. *)
Definition dec_pad (width : nat) (n : N) : string :=
  let s := dec n in
  zeros (width - String.length s) ++ s.

(** *** Floats: conversion, product, fixed-point formatting *)

Definition prec : Z := 53.
Definition emax : Z := 1024.

(** The float nearest to an integer (ties to even). *)
Definition float_of_Z (z : Z) : float := binary_normalize prec emax z 0 false.

(** [float(z)] for an int: too large an int raises. *)
Definition float_of_int (z : Z) : result float :=
  match float_of_Z z with
  | S754_infinity _ => Raise OverflowError
  | f => Ok f
  end.

(** The float nearest to [(-1)^neg * c * 10^e], for [0 <= c]. *)
Definition float_of_decimal (neg : bool) (c : Z) (e : Z) : float :=
  if 0 <=? e then binary_normalize prec emax (cond_Zopp neg (c * 10 ^ e)) 0 neg
  else
    match c with
    | Zpos m => SFdiv prec emax (S754_finite neg m 0)
                  (S754_finite false (Z.to_pos (10 ^ (- e))) 0)
    | _ => S754_zero neg
    end.

(** The grammar [float()] accepts, on ASCII strings: surrounding white
    space, a sign, then [inf], [infinity] or [nan] in any case, or
    digits with an optional point and exponent, single underscores
    allowed between digits. *)
Definition is_space (c : ascii) : bool :=
  let n := nat_of_ascii c in
  ((9 <=? n)%nat && (n <=? 13)%nat) || ((28 <=? n)%nat && (n <=? 32)%nat).

Fixpoint lstrip (l : list ascii) : list ascii :=
  match l with
  | c :: l' => if is_space c then lstrip l' else l
  | [] => []
  end.

Definition strip (l : list ascii) : list ascii := rev (lstrip (rev (lstrip l))).

Definition lower (c : ascii) : ascii :=
  let n := nat_of_ascii c in
  if (65 <=? n)%nat && (n <=? 90)%nat then ascii_of_nat (n + 32) else c.

Definition digit_val (c : ascii) : option Z :=
  let n := nat_of_ascii c in
  if (48 <=? n)%nat && (n <=? 57)%nat then Some (Z.of_nat n - 48) else None.

(** After a digit: more digits, each optionally preceded by one
    underscore.  Returns the number read so far, the count of its
    digits and the rest of the input. *)
Fixpoint digits_rest (acc : Z) (cnt : Z) (l : list ascii) : Z * Z * list ascii :=
  match l with
  | c :: l' =>
      match digit_val c with
      | Some d => digits_rest (10 * acc + d) (cnt + 1) l'
      | None =>
          if Ascii.eqb c "_" then
            match l' with
            | c' :: l'' =>
                match digit_val c' with
                | Some d => digits_rest (10 * acc + d) (cnt + 1) l''
                | None => (acc, cnt, l)
                end
            | [] => (acc, cnt, l)
            end
          else (acc, cnt, l)
      end
  | [] => (acc, cnt, [])
  end.

Definition digitpart (l : list ascii) : option (Z * Z * list ascii) :=
  match l with
  | c :: l' =>
      match digit_val c with
      | Some d => Some (digits_rest d 1 l')
      | None => None
      end
  | [] => None
  end.

Definition sign (l : list ascii) : bool * list ascii :=
  match l with
  | c :: l' =>
      if Ascii.eqb c "-" then (true, l')
      else if Ascii.eqb c "+" then (false, l')
      else (false, l)
  | [] => (false, [])
  end.

(** [digits], [digits.], [digits.digits] or [.digits]: the digits read
    as one integer, the number of them after the point, the rest. *)
Definition number (l : list ascii) : option (Z * Z * list ascii) :=
  match digitpart l with
  | Some (i, _, r) =>
      match r with
      | c :: r' =>
          if Ascii.eqb c "." then
            match digitpart r' with
            | Some (f, n, r'') => Some (i * 10 ^ n + f, n, r'')
            | None => Some (i, 0, r')
            end
          else Some (i, 0, r)
      | [] => Some (i, 0, [])
      end
  | None =>
      match l with
      | c :: r' => if Ascii.eqb c "." then digitpart r' else None
      | [] => None
      end
  end.

(** What follows the number: nothing, or an exponent up to the end. *)
Definition exponent (l : list ascii) : option Z :=
  match l with
  | [] => Some 0
  | c :: r =>
      if Ascii.eqb (lower c) "e" then
        let (neg, r') := sign r in
        match digitpart r' with
        | Some (x, _, []) => Some (cond_Zopp neg x)
        | _ => None
        end
      else None
  end.

Definition float_of_string (s : string) : option float :=
  let (neg, r) := sign (strip (list_ascii_of_string s)) in
  let w := string_of_list_ascii (map lower r) in
  if (w =? "inf")%string || (w =? "infinity")%string then Some (S754_infinity neg)
  else if (w =? "nan")%string then Some S754_nan
  else
    match number r with
    | Some (c, n, r') =>
        match exponent r' with
        | Some x => Some (float_of_decimal neg c (x - n))
        | None => None
        end
    | None => None
    end.

(** [float(v)] *)
Definition to_float (v : value) : result float :=
  match v with
  | VFloat f => Ok f
  | VInt z => float_of_int z
  | VBool b => float_of_int (if b then 1 else 0)
  | VStr s =>
      match float_of_string s with
      | Some f => Ok f
      | None => Raise ValueError
      end
  | _ => Raise TypeError
  end.

(** [num / den] rounded to the nearest integer, ties to even, for
    [0 <= num] and [0 < den]. *)
Definition round_half_even (num den : Z) : Z :=
  let q := num / den in
  match 2 * (num mod den) ?= den with
  | Lt => q
  | Gt => q + 1
  | Eq => if Z.even q then q else q + 1
  end.

(** [m * 2^e * 10^digits] rounded to the nearest integer. *)
Definition scaled (digits : nat) (m : positive) (e : Z) : Z :=
  let num := Zpos m * 10 ^ Z.of_nat digits in
  if 0 <=? e then num * 2 ^ e else round_half_even num (2 ^ (- e)).

Definition sign_str (s : bool) : string := if s then "-" else "".

(** [n / 10^digits] written with [digits] decimals, for [0 < digits]. *)
Definition fixed_point (digits : nat) (n : Z) : string :=
  let p := 10 ^ Z.of_nat digits in
  dec (Z.to_N (n / p)) ++ "." ++ dec_pad digits (Z.to_N (n mod p)).

(** [format(f, '.<digits>f')] for a float: the exact value of [f]
    rounded to [digits] decimals, ties to even. *)
Definition format_fixed (digits : nat) (f : float) : string :=
  match f with
  | S754_nan => "nan"
  | S754_infinity s => sign_str s ++ "inf"
  | S754_zero s => sign_str s ++ fixed_point digits 0
  | S754_finite s m e => sign_str s ++ fixed_point digits (scaled digits m e)
  end.

(** [format(v, '.<digits>f')], the conversion an f-string applies: an
    int goes through [float]; a str has no format code [f]. *)
Definition format_f (digits : nat) (v : value) : result string :=
  match v with
  | VFloat f => Ok (format_fixed digits f)
  | VInt z => f <- float_of_int z ;; Ok (format_fixed digits f)
  | VBool b => f <- float_of_int (if b then 1 else 0) ;; Ok (format_fixed digits f)
  | VStr _ => Raise ValueError
  | _ => Raise TypeError
  end.

Fixpoint str_repeat (s : string) (n : nat) : string :=
  match n with
  | O => ""
  | S n' => s ++ str_repeat s n'
  end.

Fixpoint list_repeat {A} (l : list A) (n : nat) : list A :=
  match n with
  | O => []
  | S n' => l ++ list_repeat l n'
  end.

(** [v * k] for an int literal [k]: arithmetic on numbers, repetition
    on str and list. *)
Definition mul_int (v : value) (k : Z) : result value :=
  match v with
  | VInt z => Ok (VInt (z * k))
  | VBool b => Ok (VInt ((if b then 1 else 0) * k))
  | VFloat f => Ok (VFloat (SFmul prec emax f (float_of_Z k)))
  | VStr s => Ok (VStr (str_repeat s (Z.to_nat k)))
  | VList l => Ok (VList (list_repeat l (Z.to_nat k)))
  | _ => Raise TypeError
  end.

End Py.

Import Py.

(** ** The formatters *)

Definition row : Type := list value.

Definition nl : string := String (ascii_of_nat 10) "".

(** [table_data.append(r)] *)
Definition append_row (table_data : list row) (r : row) : list row :=
  (table_data ++ [r])%list.

Section Formatters.

(** [tabulate(table_data, headers=..., tablefmt='grid', maxcolwidths=...)]
    of the tabulate package: rows, headers, the optional column widths. *)
Variable tabulate : list row -> list string -> option (list Z) -> string.

(** [repr(v)] for a value that is not a str. *)
Variable repr : value -> string.

(** [str(v)] *)
Definition str (v : value) : string :=
  match v with
  | VStr s => s
  | _ => repr v
  end.

(** [f'Action {i+1}'] *)
Definition action_label (i : nat) : string := "Action " ++ dec (N.of_nat (i + 1)).

(** The nested function of [format_transaction_blob] (lines 29-35). *)
Definition truncate_value (key : string) (value : value) (max_length : Z)
    : result Py.value :=
  c <- (if (key =? "data")%string
        then n <- len value ;; Ok (20 <? n)
        else Ok false) ;;
  if c then
    p <- slice_to value 20 ;; concat_str p "..."
  else
    n <- len value ;;
    if max_length <? n then
      p <- slice_to value max_length ;; concat_str p "..."
    else Ok value.

Definition blank_row : row := [VStr ""; VStr ""].

(** Lines 41-48: one row per property, [actions] left for later. *)
Definition property_row (key : string) (value : value) (table_data : list row)
    : result (list row) :=
  if (key =? "actions")%string then Ok table_data
  else if is_none value || eq_empty_str value then
    Ok (append_row table_data [VStr key; VStr "N/A"])
  else
    formatted_value <- truncate_value key (VStr (str value)) 50 ;;
    Ok (append_row table_data [VStr key; formatted_value]).

(** Lines 65-67: one indented row per field of [tx]. *)
Definition tx_row (kv : string * value) (table_data : list row) : result (list row) :=
  let (tx_key, tx_value) := kv in
  formatted_value <- truncate_value tx_key (VStr (str tx_value)) 50 ;;
  Ok (append_row table_data [VStr ("  " ++ tx_key); formatted_value]).

(** Lines 57-74: the body of the loop over [enumerate(actions)];
    [n] is [len(transaction['actions'])]. *)
Definition action_rows (n : nat) (i : nat) (action : value) (table_data : list row)
    : result (list row) :=
  if is_dict action then
    action_name <- get action "name" (VStr (action_label i)) ;;
    truncated_name <- truncate_value "name" action_name 60 ;;
    let table_data := append_row table_data [VStr (action_label i); truncated_name] in
    tx_details <- get action "tx" (VDict []) ;;
    tx_items <- items tx_details ;;
    table_data <- for_each tx_items tx_row table_data ;;
    if (Z.of_nat i <? Z.of_nat n - 1) then Ok (append_row table_data blank_row)
    else Ok table_data
  else
    truncated_action <- truncate_value "action" (VStr (str action)) 50 ;;
    Ok (append_row table_data [VStr (action_label i); truncated_action]).

Definition transaction_headers : list string := ["Property"; "Value"].

Definition transaction_banner : string :=
  nl ++ "🎯 Generated Transaction Blob:" ++ nl.

(** Lines 38-74: the rows of the transaction table. *)
Definition transaction_table (d : list (string * value)) : result (list row) :=
  table_data <- for_each d (fun kv => property_row (fst kv) (snd kv)) [] ;;
  match lookup_list "actions" d with
  | Some actions =>
      let table_data := append_row table_data blank_row in
      let table_data := append_row table_data
        [VStr "Total Actions"; VStr (dec (N.of_nat (List.length actions)))] in
      let table_data := append_row table_data blank_row in
      for_enumerate 0 actions (action_rows (List.length actions)) table_data
  | None => Ok table_data
  end.

Definition format_transaction_blob (transaction : value) : result string :=
  if negb (truthy transaction) || negb (is_dict transaction) then
    Ok "No transaction data available"
  else
    d <- items transaction ;;
    table_data <- transaction_table d ;;
    Ok (transaction_banner ++
        tabulate table_data transaction_headers (Some [20; 60])).

(** [f"${float(balance_usd):.2f}" if balance_usd else 'N/A']
    (lines 91, 136 and 171). *)
Definition balance_usd_formatted (balance_usd : value) : result value :=
  if truthy balance_usd then
    f <- to_float balance_usd ;;
    Ok (VStr ("$" ++ format_fixed 2 f))
  else Ok (VStr "N/A").

(** [f"{apy * 100:.2f}%" if apy else 'N/A'] (lines 101 and 139). *)
Definition apy_formatted (apy : value) : result value :=
  if truthy apy then
    p <- mul_int apy 100 ;;
    s <- format_f 2 p ;;
    Ok (VStr (s ++ "%"))
  else Ok (VStr "N/A").

(** [f"{float(balance_native):.6f} {symbol}" if balance_native else 'N/A']
    (line 168). *)
Definition balance_formatted (balance_native symbol : value) : result value :=
  if truthy balance_native then
    f <- to_float balance_native ;;
    Ok (VStr (format_fixed 6 f ++ " " ++ str symbol))
  else Ok (VStr "N/A").

(** [vault_name[:limit] + '...' if len(vault_name) > limit else vault_name]
    (line 96 with 18, line 131 with 16). *)
Definition vault_name_short (vault_name : value) (limit : Z) : result value :=
  n <- len vault_name ;;
  if limit <? n then
    p <- slice_to vault_name limit ;; concat_str p "..."
  else Ok vault_name.

Definition deposit_headers : list string :=
  ["Asset"; "Balance USD"; "Network"; "Vault Name"; "Protocol"; "APY"].

(** Lines 89-110: the row of one deposit option of one balance entry. *)
Definition deposit_option_row (balance option : value) : result row :=
  asset <- get balance "asset" (VDict []) ;;
  asset_symbol <- get asset "symbol" (VStr "N/A") ;;
  asset <- get balance "asset" (VDict []) ;;
  balance_usd <- get asset "balanceUsd" VNone ;;
  balance_usd_formatted <- balance_usd_formatted balance_usd ;;
  network <- get option "network" (VDict []) ;;
  network_name <- get network "name" (VStr "N/A") ;;
  vault_name <- get option "name" (VStr "N/A") ;;
  vault_name_short <- vault_name_short vault_name 18 ;;
  protocol <- get option "protocol" (VDict []) ;;
  protocol_name <- get protocol "name" (VStr "N/A") ;;
  apy <- get option "apy" (VDict []) ;;
  apy <- get apy "total" VNone ;;
  apy_formatted <- apy_formatted apy ;;
  Ok [asset_symbol; balance_usd_formatted; network_name; vault_name_short;
      protocol_name; apy_formatted].

(** Lines 87-110: the two nested loops. *)
Definition deposit_table (balances : list value) : result (list row) :=
  for_each balances (fun balance table_data =>
    deposit_options <- get balance "depositOptions" (VList []) ;;
    options <- iter deposit_options ;;
    for_each options (fun option table_data =>
      r <- deposit_option_row balance option ;;
      Ok (append_row table_data r)) table_data) [].

Definition format_deposit_options (deposit_options_response : value) : result string :=
  c <- (if negb (truthy deposit_options_response) then Ok true
        else
          user_balances <- get deposit_options_response "userBalances" VNone ;;
          Ok (negb (truthy user_balances))) ;;
  if c then Ok "No deposit options available"
  else
    user_balances <- get deposit_options_response "userBalances" (VList []) ;;
    balances <- iter user_balances ;;
    table_data <- deposit_table balances ;;
    Ok (tabulate table_data deposit_headers None).

(** The guard shared by [format_positions] (line 117) and
    [format_user_balances] (line 155):
    [not x or not x.get('data') or not isinstance(x.get('data'), list)]. *)
Definition no_data (x : value) : result bool :=
  if negb (truthy x) then Ok true
  else
    data <- get x "data" VNone ;;
    if negb (truthy data) then Ok true
    else
      data <- get x "data" VNone ;;
      Ok (negb (is_list data)).

Definition position_headers : list string :=
  ["Network"; "Protocol"; "Vault Name"; "Asset"; "Balance USD"; "APY"].

(** Lines 127-148: the row of one position. *)
Definition position_row (position : value) : result row :=
  network <- get position "network" (VDict []) ;;
  network_name <- get network "name" (VStr "N/A") ;;
  protocol <- get position "protocol" (VDict []) ;;
  protocol_name <- get protocol "name" (VStr "N/A") ;;
  vault_name <- get position "name" (VStr "Unknown Vault") ;;
  vault_name_short <- vault_name_short vault_name 16 ;;
  asset <- get position "asset" (VDict []) ;;
  asset_symbol <- get asset "symbol" (VStr "N/A") ;;
  asset <- get position "asset" (VDict []) ;;
  balance_usd <- get asset "balanceUsd" VNone ;;
  balance_usd_formatted <- balance_usd_formatted balance_usd ;;
  apy <- get position "apy" (VDict []) ;;
  apy <- get apy "total" VNone ;;
  apy_formatted <- apy_formatted apy ;;
  Ok [network_name; protocol_name; vault_name_short; asset_symbol;
      balance_usd_formatted; apy_formatted].

(** A loop that sets its flag and appends one row per item
    (lines 123-148 and 161-180); the state is [(flag, table_data)]. *)
Definition flagged_rows (row_of : value -> result row) (l : list value)
    : result (bool * list row) :=
  for_each l (fun x st =>
    r <- row_of x ;;
    Ok (true, append_row (snd st) r)) (false, []).

Definition format_positions (positions : value) : result string :=
  c <- no_data positions ;;
  if c then Ok "No positions available"
  else
    data <- get positions "data" (VList []) ;;
    l <- iter data ;;
    st <- flagged_rows position_row l ;;
    let (has_positions, table_data) := st : bool * list row in
    Ok (if has_positions then tabulate table_data position_headers None
        else "No active positions found").

Definition balance_headers : list string :=
  ["Asset"; "Balance"; "Balance USD"; "Network"].

(** Lines 165-180: the row of one idle asset. *)
Definition balance_row (asset : value) : result row :=
  symbol <- get asset "symbol" (VStr "N/A") ;;
  balance_native <- get asset "balanceNative" VNone ;;
  balance_formatted <- balance_formatted balance_native symbol ;;
  balance_usd <- get asset "balanceUsd" VNone ;;
  balance_usd_formatted <- balance_usd_formatted balance_usd ;;
  network <- get asset "network" (VDict []) ;;
  network_name <- get network "name" (VStr "N/A") ;;
  Ok [symbol; balance_formatted; balance_usd_formatted; network_name].

Definition format_user_balances (idle_assets : value) : result string :=
  c <- no_data idle_assets ;;
  if c then Ok "No idle assets available"
  else
    data <- get idle_assets "data" (VList []) ;;
    l <- iter data ;;
    st <- flagged_rows balance_row l ;;
    let (has_balances, table_data) := st : bool * list row in
    Ok (if has_balances then tabulate table_data balance_headers None
        else "No idle assets found").

End Formatters.

(** ** The workflow driver *)

Definition USER_ADDRESS : string := "0xdB79e7E9e1412457528e40db9fCDBe69f558777d".

(** The requests the driver sends through the SDK client. *)
Inductive call : Type :=
| GetIdleAssets (user_address : string)
| GetDepositOptions (user_address : string) (allowed_assets : list string)
| GetActions (action : string) (user_address : string) (network : value)
    (vault_address : value) (amount : string) (asset_address : value)
    (simulate : bool)
| GetPositions (user_address : string).

(** What a run does to the outside: lines printed, requests sent. *)
Inductive event : Type :=
| Printed (s : string)
| Requested (c : call).

(** A computation that extends the log of events and returns or raises;
    the log survives an exception. *)
Definition io (A : Type) : Type := list event -> result A * list event.

Definition io_ret {A} (a : A) : io A := fun log => (Ok a, log).

Definition io_bind {A B} (c : io A) (k : A -> io B) : io B :=
  fun log =>
    match c log with
    | (Ok a, log') => k a log'
    | (Raise e, log') => (Raise e, log')
    end.

Notation "x <~ c ;; k" := (io_bind c (fun x => k))
  (at level 61, c at next level, right associativity) : py_scope.

Definition lift {A} (r : result A) : io A := fun log => (r, log).

Definition print (s : string) : io unit :=
  fun log => (Ok tt, (log ++ [Printed s])%list).

(** [try: body except Exception as error: handler(error)] *)
Definition try_except {A} (body : io A) (handler : exn -> io A) : io A :=
  fun log =>
    match body log with
    | (Ok a, log') => (Ok a, log')
    | (Raise e, log') => handler e log'
    end.

Section Driver.

Variable tabulate : list row -> list string -> option (list Z) -> string.
Variable repr : value -> string.

(** [str(error)] for a caught exception. *)
Variable exn_str : exn -> string.

(** A client answers each request with a payload or raises. *)
Definition client : Type := call -> result value.

(** [VaultsSdk(api_key=...)] *)
Variable VaultsSdk : string -> client.

Definition request (cl : client) (c : call) : io value :=
  fun log => (cl c, (log ++ [Requested c])%list).

Definition get_user_balances (cl : client) : io value :=
  try_except
    (idle_assets <~ request cl (GetIdleAssets USER_ADDRESS) ;;
     _ <~ print "💰 User balances:" ;;
     s <~ lift (format_user_balances tabulate repr idle_assets) ;;
     _ <~ print s ;;
     io_ret idle_assets)
    (fun error =>
     _ <~ print ("Error fetching user balances: " ++ exn_str error) ;;
     io_ret VNone).

Definition get_best_deposit_options (cl : client) : io value :=
  try_except
    (deposit_options <~ request cl (GetDepositOptions USER_ADDRESS ["USDC"; "USDS"]) ;;
     _ <~ print "📊 Best deposit options (USDC/USDS only):" ;;
     s <~ lift (format_deposit_options tabulate deposit_options) ;;
     _ <~ print s ;;
     io_ret deposit_options)
    (fun error =>
     _ <~ print ("Error fetching deposit options: " ++ exn_str error) ;;
     io_ret VNone).

Definition generate_deposit_transaction_with_asset (cl : client)
    (vault_address : value) (amount : string) (user_address : string)
    (network : value) (asset_address : value) : io value :=
  try_except
    (transaction <~ request cl
       (GetActions "deposit" user_address network vault_address amount
          asset_address false) ;;
     s <~ lift (format_transaction_blob tabulate repr transaction) ;;
     _ <~ print s ;;
     io_ret transaction)
    (fun error =>
     _ <~ print ("❌ Transaction generation failed: " ++ exn_str error) ;;
     io_ret (VDict [("success", VBool false);
                    ("message", VStr "Transaction generation failed");
                    ("error", VStr (exn_str error))])).

Definition get_user_positions (cl : client) : io value :=
  try_except
    (positions <~ request cl (GetPositions USER_ADDRESS) ;;
     _ <~ print "💼 User positions:" ;;
     s <~ lift (format_positions tabulate positions) ;;
     _ <~ print s ;;
     io_ret positions)
    (fun error =>
     _ <~ print ("Error fetching user positions: " ++ exn_str error) ;;
     io_ret VNone).

(** Lines 293-299: the network name of the chosen deposit option. *)
Definition resolve_network (first_deposit_option : value) : result value :=
  let network := VStr "mainnet" in
  c <- get first_deposit_option "network" VNone ;;
  if truthy c then
    network_data <- get first_deposit_option "network" VNone ;;
    if is_str network_data then Ok network_data
    else if is_dict network_data then get network_data "name" (VStr "mainnet")
    else Ok network
  else Ok network.

(** Lines 278-319: step 2, from the answer of step 1. *)
Definition deposit_step (cl : client) (top_options : value) : io unit :=
  user_balances <~ lift (if truthy top_options
                         then get top_options "userBalances" (VList [])
                         else Ok (VList [])) ;;
  c <~ lift (if truthy user_balances
             then n <- len user_balances ;; Ok (0 <? n)
             else Ok false) ;;
  if c then
    first_asset <~ lift (index user_balances 0) ;;
    deposit_options <~ lift (get first_asset "depositOptions" (VList [])) ;;
    n <~ lift (len deposit_options) ;;
    if 3 <=? n then
      first_deposit_option <~ lift (index deposit_options 2) ;;
      vault_name <~ lift (get first_deposit_option "name" (VStr "Unknown vault")) ;;
      _ <~ print (nl ++ "💳 2. Generating deposit transaction into "
                  ++ str repr vault_name ++ "...") ;;
      vault_address <~ lift (get first_deposit_option "address" VNone) ;;
      asset <~ lift (get first_asset "asset" (VDict [])) ;;
      asset_address <~ lift (get asset "address" VNone) ;;
      network <~ lift (resolve_network first_deposit_option) ;;
      if truthy vault_address && truthy asset_address then
        let amount := "1000000" in
        _ <~ generate_deposit_transaction_with_asset cl vault_address amount
               USER_ADDRESS network asset_address ;;
        io_ret tt
      else
        _ <~ print "❌ Could not find vault address or asset address in deposit option" ;;
        _ <~ print ("Vault address: " ++ str repr vault_address) ;;
        print ("Asset address: " ++ str repr asset_address)
    else print "❌ Not enough deposit options available (need at least 3)"
  else print "❌ No deposit options available".

Definition run_example_implementation (getenv : string -> option string) : io unit :=
  _ <~ print ("🔷 ===== Vaults.fyi Python SDK Example Implementation ===== 🔷" ++ nl) ;;
  match getenv "VAULTS_FYI_API_KEY" with
  | Some (String c k) =>
      let api_key := String c k in
      let cl := VaultsSdk api_key in
      _ <~ print "💰 0. Checking user balances..." ;;
      _ <~ get_user_balances cl ;;
      _ <~ print (nl ++ "📈 1. Finding best deposit options...") ;;
      top_options <~ get_best_deposit_options cl ;;
      _ <~ deposit_step cl top_options ;;
      _ <~ print (nl ++ "💼 3. Checking user positions...") ;;
      _ <~ get_user_positions cl ;;
      print (nl ++ "🎉 === Example Implementation Complete === 🎉")
  | _ => print "Please set VAULTS_FYI_API_KEY environment variable"
  end.

End Driver.

(** ** Shapes of the payloads

    The data model gives every record optional fields; a field that is
    present has the type the model names.  The predicates below say so
    for the fields the formatters read. *)

(** Field [k] is missing or a mapping. *)
Definition opt_dict (k : string) (d : list (string * value)) : bool :=
  match lookup k d with
  | None | Some (VDict _) => true
  | _ => false
  end.

(** Field [k] is missing or a string. *)
Definition opt_str (k : string) (d : list (string * value)) : bool :=
  match lookup k d with
  | None | Some (VStr _) => true
  | _ => false
  end.








(** The deposit options of a balance entry, none when the field is missing. *)
Definition options_of (entry : value) : list value :=
  match entry with
  | VDict b =>
      match lookup "depositOptions" b with
      | Some (VList os) => os
      | _ => []
      end
  | _ => []
  end.








(** A TransactionAction: a mapping with an optional string [name] and an
    optional mapping [tx]. *)
Definition wf_action (v : value) : bool :=
  match v with
  | VDict a => opt_str "name" a && opt_dict "tx" a
  | _ => false
  end.


(** ** The rows of the transaction table, as the specification words them *)

Section TransactionRows.

Variable repr : value -> string.

(** truncate(key, value, maxLength): first 20 characters and an ellipsis
    for a [data] longer than 20; else first [maxLength] characters and
    an ellipsis when longer than [maxLength]; else unchanged. *)
Definition truncate (key s : string) (maxLength : nat) : string :=
  if (key =? "data")%string && (20 <? String.length s)%nat then str_take 20 s ++ "..."
  else if (maxLength <? String.length s)%nat then str_take maxLength s ++ "..."
  else s.

(** shortenName(name, limit) *)
Definition shortenName (name : string) (limit : nat) : string :=
  if (limit <? String.length name)%nat then str_take limit name ++ "..."
  else name.

(** One row per field other than [actions]. *)
Definition field_rows (d : list (string * value)) : list row :=
  flat_map (fun kv : string * value =>
    let (k, v) := kv in
    if (k =? "actions")%string then []
    else if is_none v || eq_empty_str v then [[VStr k; VStr "N/A"]]
    else [[VStr k; VStr (truncate k (str repr v) 50)]]) d.

(** The rows of a mapping action displayed under number [i]: a header
    row, then one indented row per field of [tx]. *)
Definition action_block (i : nat) (a : list (string * value)) : list row :=
  let label := "Action " ++ dec (N.of_nat i) in
  let name := match lookup "name" a with Some (VStr s) => s | _ => label end in
  let tx := match lookup "tx" a with Some (VDict t) => t | _ => [] end in
  ([VStr label; VStr (shortenName name 60)] ::
   map (fun kv : string * value =>
          [VStr ("  " ++ fst kv); VStr (truncate (fst kv) (str repr (snd kv)) 50)])
       tx)%list.

(** The blocks of the actions, numbered from [i], a blank spacer row
    between consecutive blocks and none after the last. *)
Fixpoint action_blocks (i : nat) (actions : list (list (string * value))) : list row :=
  match actions with
  | [] => []
  | [a] => action_block i a
  | a :: rest => (action_block i a ++ blank_row :: action_blocks (S i) rest)%list
  end.

Definition total_row (n : nat) : row :=
  [VStr "Total Actions"; VStr (dec (N.of_nat n))].

End TransactionRows.

(** The mappings of a list of values. *)
Fixpoint dicts_of (l : list value) : list (list (string * value)) :=
  match l with
  | [] => []
  | VDict d :: l' => d :: dicts_of l'
  | _ :: l' => dicts_of l'
  end.

(** ** Sample renderers and payloads for the examples *)

Definition sample_tabulate (rows : list row) (headers : list string)
    (widths : option (list Z)) : string :=
  dec (N.of_nat (List.length headers)) ++ " columns, " ++
  dec (N.of_nat (List.length rows)) ++ " rows".

Definition sample_repr (v : value) : string :=
  match v with
  | VNone => "None"
  | VBool true => "True"
  | VBool false => "False"
  | VInt z => sign_str (z <? 0) ++ dec (Z.to_N (Z.abs z))
  | _ => "?"
  end.

Definition sample_exn_str (e : exn) : string :=
  match e with
  | ClientError msg => msg
  | _ => "error"
  end.

(** ** Loops that collect rows *)

(** The results of [f] on the items of [l], in order, unless one raises. *)
Fixpoint map_result {A B : Type} (f : A -> result B) (l : list A) : result (list B) :=
  match l with
  | [] => Ok []
  | x :: l' => r <- f x ;; rs <- map_result f l' ;; Ok (r :: rs)
  end.

(** The rows one balance entry contributes to the deposit table. *)
Definition entry_rows (balance : value) : result (list row) :=
  deposit_options <- get balance "depositOptions" (VList []) ;;
  options <- iter deposit_options ;;
  map_result (deposit_option_row balance) options.


Definition no_rows : list row := [].

(** ** Rounding *)

(** [n] is an integer nearest to [m * 2^e * 10^digits]. *)
Definition nearest_scaled (digits : nat) (m : positive) (e : Z) (n : Z) : Prop :=
  2 * Z.abs (n * 2 ^ Z.max 0 (- e) - Zpos m * 10 ^ Z.of_nat digits * 2 ^ Z.max 0 e)
  <= 2 ^ Z.max 0 (- e).

(** The float of the literal [0.1523]. *)
Definition apy_sample : float :=
  match float_of_string "0.1523" with
  | Some f => f
  | None => S754_nan
  end.

(** A deposit option named [name] at [address] with yield [n] percent. *)
Definition sample_option (name address : string) (n : Z) : value :=
  VDict [("name", VStr name); ("address", VStr address);
         ("network", VDict [("name", VStr "mainnet")]);
         ("protocol", VDict [("name", VStr "aave")]);
         ("apy", VDict [("total", VFloat (float_of_decimal false n (-2)))])].

Definition sample_asset : value :=
  VDict [("symbol", VStr "USDC"); ("address", VStr "0xA0b8");
         ("balanceUsd", VStr "1234.5")].

(** Three options, the first with the highest yield. *)
Definition sample_options : list value :=
  [sample_option "Vault A" "0xaaa" 9;
   sample_option "Vault B" "0xbbb" 5;
   sample_option "Vault C" "0xccc" 2].

Definition sample_entries : list value :=
  [VDict [("asset", sample_asset); ("depositOptions", VList sample_options)];
   VDict [("asset", VDict [("symbol", VStr "USDS")])]].

Definition sample_deposit_fields : list (string * value) :=
  [("userBalances", VList sample_entries)].

Definition sample_idle_assets : list value :=
  [VDict [("symbol", VStr "USDC"); ("balanceNative", VStr "1234.5");
          ("balanceUsd", VStr "1234.5");
          ("network", VDict [("name", VStr "mainnet")])];
   VDict []].

Definition sample_positions : list value :=
  [VDict [("name", VStr "A vault with a long name");
          ("apy", VDict [("total", VFloat apy_sample)])]].

Definition sample_actions : list value :=
  [VDict [("name", VStr "Approve");
          ("tx", VDict [("to", VStr "0xabc");
                        ("data", VStr "0x1234567890abcdef1234567890")])];
   VDict [("name", VStr "Deposit")]].

Definition sample_transaction_fields : list (string * value) :=
  [("currentActionIndex", VInt 0); ("actions", VList sample_actions)].

(** A client that answers the deposit-options request with [response]. *)
Definition sample_client (response : value) : client :=
  fun c =>
    match c with
    | GetIdleAssets _ => Ok (VDict [("data", VList sample_idle_assets)])
    | GetDepositOptions _ _ => Ok response
    | GetActions _ _ _ _ _ _ _ => Ok (VDict sample_transaction_fields)
    | GetPositions _ => Ok (VDict [("data", VList sample_positions)])
    end.

Definition sample_getenv (name : string) : option string :=
  if (name =? "VAULTS_FYI_API_KEY")%string then Some "key" else None.

(** Three options for the first entry, the third with its network
    given as a string. *)
Definition string_network_response : value :=
  VDict [("userBalances", VList [VDict
    [("asset", sample_asset);
     ("depositOptions", VList
        [sample_option "Vault A" "0xaaa" 9;
         sample_option "Vault B" "0xbbb" 5;
         VDict [("name", VStr "Vault C"); ("address", VStr "0xccc");
                ("network", VStr "mainnet")]])]])].

(** Three options for the first entry, the first with a yield that is
    not a number. *)
Definition text_yield_response : value :=
  VDict [("userBalances", VList [VDict
    [("asset", sample_asset);
     ("depositOptions", VList
        [VDict [("name", VStr "Vault A"); ("address", VStr "0xaaa");
                ("apy", VDict [("total", VStr "high")])];
         sample_option "Vault B" "0xbbb" 5;
         sample_option "Vault C" "0xccc" 2])]])].

(** The events a computation adds to the log [log]. *)
Definition extends {A : Type} (c : io A) : Prop :=
  forall log, exists events, snd (c log) = (log ++ events)%list.

(** Field [k] of a mapping, [default] when missing. *)
Definition field_or (k : string) (d : list (string * value)) (default : value) : value :=
  match lookup k d with
  | Some v => v
  | None => default
  end.

(** The line step 2 prints for the deposit option [od] it chose. *)
Definition generating_line (repr : value -> string) (od : list (string * value))
    : string :=
  nl ++ "💳 2. Generating deposit transaction into "
     ++ str repr (field_or "name" od (VStr "Unknown vault")) ++ "...".

(** The log of a run in which step 1 fetched a response and failed to
    render it. *)
Definition log_without_selection : list event :=
  [Printed ("🔷 ===== Vaults.fyi Python SDK Example Implementation ===== 🔷" ++ nl);
   Printed "💰 0. Checking user balances...";
   Requested (GetIdleAssets USER_ADDRESS);
   Printed "💰 User balances:";
   Printed "4 columns, 2 rows";
   Printed (nl ++ "📈 1. Finding best deposit options...");
   Requested (GetDepositOptions USER_ADDRESS ["USDC"; "USDS"]);
   Printed "📊 Best deposit options (USDC/USDS only):";
   Printed "Error fetching deposit options: error";
   Printed "❌ No deposit options available";
   Printed (nl ++ "💼 3. Checking user positions...");
   Requested (GetPositions USER_ADDRESS);
   Printed "💼 User positions:";
   Printed "6 columns, 1 rows";
   Printed (nl ++ "🎉 === Example Implementation Complete === 🎉")].

(** ** Runs of the driver *)

(** The requests among the events of a log, in order. *)
Definition requests (log : list event) : list call :=
  flat_map (fun ev => match ev with Requested c => [c] | Printed _ => [] end) log.

(** The record lines 237-241 return for the exception [error]. *)
Definition failure_record (exn_str : exn -> string) (error : exn) : value :=
  VDict [("success", VBool false);
         ("message", VStr "Transaction generation failed");
         ("error", VStr (exn_str error))].

Definition completion_line : string :=
  nl ++ "🎉 === Example Implementation Complete === 🎉".

Definition not_enough_line : string :=
  "❌ Not enough deposit options available (need at least 3)".

Definition no_options_line : string := "❌ No deposit options available".

(** The request of step 2, if any: a deposit of 1000000 units for the
    fixed user, not simulated, with addresses that are true. *)
Definition deposit_requests (l : list call) : Prop :=
  l = [] \/
  exists network vault_address asset_address,
    l = [GetActions "deposit" USER_ADDRESS network vault_address "1000000"
           asset_address false] /\
    truthy vault_address = true /\ truthy asset_address = true.

(** ** Strings *)

Lemma length_app_str (s t : string) :
  String.length (s ++ t) = (String.length s + String.length t)%nat.
Proof.
  induction s as [|c s IH]; simpl; [reflexivity | now rewrite IH].
Qed.

Lemma app_str_assoc (s t u : string) : (s ++ t) ++ u = s ++ t ++ u.
Proof.
  induction s as [|c s IH]; simpl; [reflexivity | now rewrite IH].
Qed.

Lemma str_take_length (n : nat) (s : string) :
  String.length (str_take n s) = Nat.min n (String.length s).
Proof.
  revert s; induction n as [|n IH]; intros [|c s]; simpl; auto.
Qed.

Lemma str_take_all (n : nat) (s : string) :
  (String.length s <= n)%nat -> str_take n s = s.
Proof.
  revert s; induction n as [|n IH]; intros [|c s]; simpl; intros H;
    try reflexivity; try lia.
  f_equal. apply IH. lia.
Qed.

Lemma str_take_app (n : nat) (s t : string) :
  (n <= String.length s)%nat -> str_take n (s ++ t) = str_take n s.
Proof.
  revert s; induction n as [|n IH]; intros [|c s]; simpl; intros H;
    try reflexivity; try lia.
  f_equal. apply IH. lia.
Qed.

(** Cutting a cut string at the same place gives the cut string. *)
Lemma str_take_cut (n : nat) (s t : string) :
  (n <= String.length s)%nat -> str_take n (str_take n s ++ t) = str_take n s.
Proof.
  intros H. rewrite str_take_app.
  - apply str_take_all. rewrite str_take_length. lia.
  - rewrite str_take_length. lia.
Qed.

Lemma slice_stop_nonneg (n : nat) (stop : Z) :
  0 <= stop -> slice_stop n stop = Z.to_nat stop.
Proof.
  intros H. unfold slice_stop. destruct (Z.ltb_spec stop 0); [lia | reflexivity].
Qed.

(** ** [truncate_value] on strings *)

(** On a str and a non-negative bound, [truncate_value] returns the str
    the specification's [truncate] describes. *)
Lemma truncate_value_str (key s : string) (max_length : Z) :
  0 <= max_length ->
  truncate_value key (VStr s) max_length
  = Ok (VStr (truncate key s (Z.to_nat max_length))).
Proof.
  intros Hm. unfold truncate_value, truncate. simpl.
  destruct (key =? "data")%string; simpl.
  - destruct (Z.ltb_spec 20 (Z.of_nat (String.length s))) as [H|H];
      destruct (Nat.ltb_spec 20 (String.length s)) as [H'|H']; try lia; simpl.
    + reflexivity.
    + destruct (Z.ltb_spec max_length (Z.of_nat (String.length s))) as [G|G];
        destruct (Nat.ltb_spec (Z.to_nat max_length) (String.length s)) as [G'|G'];
        try lia; simpl; [|reflexivity].
      now rewrite slice_stop_nonneg.
  - destruct (Z.ltb_spec max_length (Z.of_nat (String.length s))) as [G|G];
      destruct (Nat.ltb_spec (Z.to_nat max_length) (String.length s)) as [G'|G'];
      try lia; simpl; [|reflexivity].
    now rewrite slice_stop_nonneg.
Qed.

Lemma truncate_length (key s : string) (m : nat) :
  (String.length (truncate key s m) <= Nat.max 20 m + 3)%nat.
Proof.
  unfold truncate.
  destruct ((key =? "data")%string && (20 <? String.length s)%nat).
  - rewrite length_app_str, str_take_length.
    change (String.length "...") with 3%nat. lia.
  - destruct (Nat.ltb_spec m (String.length s)).
    + rewrite length_app_str, str_take_length.
      change (String.length "...") with 3%nat. lia.
    + lia.
Qed.

Lemma truncate_data (key s : string) (m : nat) :
  (key =? "data")%string = true -> (20 < String.length s)%nat ->
  truncate key s m = str_take 20 s ++ "...".
Proof.
  intros K H. unfold truncate. rewrite K.
  destruct (Nat.ltb_spec 20 (String.length s)); [reflexivity | lia].
Qed.

Lemma truncate_long (key s : string) (m : nat) :
  (key =? "data")%string = false \/ (String.length s <= 20)%nat ->
  (m < String.length s)%nat ->
  truncate key s m = str_take m s ++ "...".
Proof.
  intros K H. unfold truncate.
  replace ((key =? "data")%string && (20 <? String.length s)%nat) with false.
  - destruct (Nat.ltb_spec m (String.length s)); [reflexivity | lia].
  - destruct K as [K|K]; [now rewrite K|].
    destruct (Nat.ltb_spec 20 (String.length s)); [lia|].
    now rewrite andb_false_r.
Qed.

Lemma truncate_short (key s : string) (m : nat) :
  (key =? "data")%string = false \/ (String.length s <= 20)%nat ->
  (String.length s <= m)%nat ->
  truncate key s m = s.
Proof.
  intros K H. unfold truncate.
  replace ((key =? "data")%string && (20 <? String.length s)%nat) with false.
  - destruct (Nat.ltb_spec m (String.length s)); [lia | reflexivity].
  - destruct K as [K|K]; [now rewrite K|].
    destruct (Nat.ltb_spec 20 (String.length s)); [lia|].
    now rewrite andb_false_r.
Qed.

Lemma cut_length (n : nat) (s : string) :
  (n <= String.length s)%nat -> String.length (str_take n s ++ "...") = (n + 3)%nat.
Proof.
  intros H. rewrite length_app_str, str_take_length.
  change (String.length "...") with 3%nat. lia.
Qed.

Lemma truncate_idempotent (key s : string) (m : nat) :
  ((key =? "data")%string = true -> (m < 18 \/ 20 <= m)%nat) ->
  truncate key (truncate key s m) m = truncate key s m.
Proof.
  intros Hk.
  destruct (key =? "data")%string eqn:K.
  - specialize (Hk eq_refl).
    destruct (Nat.ltb_spec 20 (String.length s)) as [H|H].
    + rewrite (truncate_data key s m K H).
      pose proof (cut_length 20 s ltac:(lia)) as L.
      rewrite truncate_data by (assumption || lia).
      now rewrite str_take_cut by lia.
    + destruct (Nat.ltb_spec m (String.length s)) as [G|G].
      * rewrite (truncate_long key s m (or_intror H) G).
        pose proof (cut_length m s ltac:(lia)) as L.
        rewrite truncate_long by (try right; lia).
        now rewrite str_take_cut by lia.
      * rewrite (truncate_short key s m (or_intror H) G).
        now apply truncate_short; [right|].
  - destruct (Nat.ltb_spec m (String.length s)) as [G|G].
    + rewrite (truncate_long key s m (or_introl K) G).
      pose proof (cut_length m s ltac:(lia)) as L.
      rewrite truncate_long by (first [left; exact K | lia]).
      now rewrite str_take_cut by lia.
    + rewrite (truncate_short key s m (or_introl K) G).
      now apply truncate_short; [left|].
Qed.

(** C6, as amended: for every key, string and max length that is not
    negative and, for the key [data], is outside 18..19 (the program
    uses 50 and 60), [truncate_value] applied to its own output
    returns that output again, whose length is at most
    [max 20 max_length + 3]. *)
Theorem truncate_value_idempotent (key s : string) (max_length : Z) :
  0 <= max_length ->
  ((key =? "data")%string = true -> max_length < 18 \/ 20 <= max_length) ->
  exists t,
    truncate_value key (VStr s) max_length = Ok (VStr t) /\
    truncate_value key (VStr t) max_length = Ok (VStr t) /\
    Z.of_nat (String.length t) <= Z.max 20 max_length + 3.
Proof.
  intros Hm Hk. exists (truncate key s (Z.to_nat max_length)).
  rewrite !truncate_value_str by assumption.
  rewrite truncate_idempotent by (intros K; specialize (Hk K); lia).
  repeat split.
  pose proof (truncate_length key s (Z.to_nat max_length)). lia.
Qed.

Lemma truncate_value_idempotent_witness :
  exists t,
    truncate_value "data" (VStr "0x1234567890abcdef1234567890") 50 = Ok (VStr t) /\
    truncate_value "data" (VStr t) 50 = Ok (VStr t) /\
    Z.of_nat (String.length t) <= Z.max 20 50 + 3.
Proof.
  apply (truncate_value_idempotent "data" "0x1234567890abcdef1234567890" 50).
  - lia.
  - intros _. right. lia.
Defined.

(** C6, as stated, fails: with key [data] and max length 18, a string of
    19 characters is cut to 18 and an ellipsis, 21 characters; cutting
    that again as a [data] longer than 20 leaves five dots. *)
Lemma truncate_value_not_idempotent :
  truncate_value "data" (VStr "aaaaaaaaaaaaaaaaaaa") 18
  = Ok (VStr "aaaaaaaaaaaaaaaaaa...") /\
  truncate_value "data" (VStr "aaaaaaaaaaaaaaaaaa...") 18
  = Ok (VStr "aaaaaaaaaaaaaaaaaa.....") /\
  truncate_value "data" (VStr "aaaaaaaaaaaaaaaaaa...") 18
  <> Ok (VStr "aaaaaaaaaaaaaaaaaa...").
Proof. repeat split; try reflexivity. discriminate. Qed.

(** ** Loops *)

Lemma bind_ok {A B} (c : result A) (k : A -> result B) (b : B) :
  bind c k = Ok b -> exists a, c = Ok a /\ k a = Ok b.
Proof. destruct c as [a|e]; simpl; [eauto | discriminate]. Qed.

Lemma for_each_unchanged {A St} (body : A -> St -> result St) (l : list A) (s : St) :
  (forall x, In x l -> body x s = Ok s) -> for_each l body s = Ok s.
Proof.
  induction l as [|x l IH]; simpl; intros H; [reflexivity|].
  rewrite H by auto. simpl. apply IH. auto.
Qed.

(** A loop that appends [f x] for each item computes [map_result f]. *)
Lemma for_each_collect {A} (f : A -> result row) (l : list A) (table_data : list row) :
  for_each l (fun x td => r <- f x ;; Ok (append_row td r)) table_data
  = (rs <- map_result f l ;; Ok (table_data ++ rs)%list).
Proof.
  revert table_data; induction l as [|x l IH]; intros td; simpl.
  - now rewrite app_nil_r.
  - destruct (f x) as [r|e]; simpl; [|reflexivity].
    rewrite IH. unfold append_row.
    destruct (map_result f l); simpl; [|reflexivity].
    now rewrite <- app_assoc.
Qed.

Lemma map_result_Forall2 {A B} (f : A -> result B) (l : list A) (rs : list B) :
  map_result f l = Ok rs <-> Forall2 (fun x r => f x = Ok r) l rs.
Proof.
  revert rs; induction l as [|x l IH]; intros rs; simpl.
  - split; intros H.
    + injection H as <-. constructor.
    + inversion H. reflexivity.
  - split; intros H.
    + apply bind_ok in H as (r & Hr & H).
      apply bind_ok in H as (rs' & Hrs & H). injection H as <-.
      constructor; [assumption | now apply IH].
    + inversion H as [|? r ? rs' Hr Hrs]; subst.
      rewrite Hr. simpl. apply IH in Hrs. rewrite Hrs. reflexivity.
Qed.

Lemma map_result_length {A B} (f : A -> result B) (l : list A) (rs : list B) :
  map_result f l = Ok rs -> List.length rs = List.length l.
Proof.
  intros H. apply map_result_Forall2 in H. symmetry.
  induction H; simpl; congruence.
Qed.


(** The flagged loop: the flag is set exactly when the list has an item. *)
Lemma flagged_rows_collect (f : value -> result row) (l : list value) :
  flagged_rows f l
  = (rs <- map_result f l ;;
     Ok (match l with [] => false | _ => true end, rs)).
Proof.
  unfold flagged_rows.
  assert (G : forall b td,
    for_each l (fun x st => r <- f x ;; Ok (true, append_row (snd st) r)) (b, td)
    = (rs <- map_result f l ;;
       Ok (match l with [] => b | _ => true end, (td ++ rs)%list))).
  { induction l as [|x l IH]; intros b td; simpl.
    - now rewrite app_nil_r.
    - destruct (f x) as [r|e]; simpl; [|reflexivity].
      rewrite IH. unfold append_row.
      destruct (map_result f l); simpl; [|reflexivity].
      rewrite <- app_assoc. simpl. now destruct l. }
  apply G.
Qed.

(** The nested loops of the deposit table: the rows of each entry, in
    order, one after the other. *)
Lemma deposit_table_collect (balances : list value) :
  deposit_table balances
  = (rss <- map_result entry_rows balances ;; Ok (List.concat rss)).
Proof.
  unfold deposit_table.
  assert (G : forall td,
    for_each balances (fun balance table_data =>
      deposit_options <- get balance "depositOptions" (VList []) ;;
      options <- iter deposit_options ;;
      for_each options (fun option table_data =>
        r <- deposit_option_row balance option ;;
        Ok (append_row table_data r)) table_data) td
    = (rss <- map_result entry_rows balances ;; Ok (td ++ List.concat rss)%list)).
  { induction balances as [|b bs IH]; intros td; simpl.
    - now rewrite app_nil_r.
    - unfold entry_rows at 1.
      destruct (get b "depositOptions" (VList [])) as [o|e]; simpl; [|reflexivity].
      destruct (iter o) as [os|e]; simpl; [|reflexivity].
      rewrite for_each_collect.
      destruct (map_result (deposit_option_row b) os) as [rs|e]; simpl; [|reflexivity].
      rewrite IH.
      destruct (map_result entry_rows bs); simpl; [|reflexivity].
      now rewrite <- app_assoc. }
  apply G.
Qed.

(** ** The guards *)

(** The guard lets through exactly a mapping whose [data] is a list with
    an item: an empty list is not true and is caught with the missing. *)
Lemma no_data_false (x : value) :
  no_data x = Ok false ->
  exists d a l, x = VDict d /\ lookup "data" d = Some (VList (a :: l)).
Proof.
  unfold no_data. destruct (truthy x) eqn:T; simpl; [|discriminate].
  destruct x as [| | | | | |d]; simpl; try discriminate.
  destruct (lookup "data" d) as [v|] eqn:L; simpl; [|discriminate].
  destruct (truthy v) eqn:Tv; simpl; [|discriminate].
  destruct v as [| | | | |l|]; simpl; try discriminate.
  destruct l as [|a l]; [discriminate|]. intros _. eauto.
Qed.

Lemma no_data_list (d : list (string * value)) (a : value) (l : list value) :
  lookup "data" d = Some (VList (a :: l)) -> no_data (VDict d) = Ok false.
Proof.
  intros L. unfold no_data.
  destruct d as [|kv d]; [discriminate|].
  cbn [truthy negb]. unfold get. rewrite L. reflexivity.
Qed.

Section Properties.

Variable tabulate : list row -> list string -> option (list Z) -> string.
Variable repr : value -> string.

(** C2: on a payload whose [data] is present and empty the code returns
    the messages of the missing case, "No idle assets available" and
    "No positions available", not the "found" messages the claim names. *)
Theorem empty_data_reported_unavailable :
  format_user_balances tabulate repr (VDict [("data", VList [])])
  = Ok "No idle assets available" /\
  format_positions tabulate (VDict [("data", VList [])])
  = Ok "No positions available".
Proof. split; reflexivity. Qed.

(** What [format_positions] can return: the message of the guard, or a
    table with at least one row.  "No active positions found" is never
    reached. *)
Lemma format_positions_results (positions : value) (s : string) :
  format_positions tabulate positions = Ok s ->
  s = "No positions available" \/
  exists rows, rows <> [] /\ s = tabulate rows position_headers None.
Proof.
  unfold format_positions. intros H.
  apply bind_ok in H as (c & Hc & H). destruct c.
  - left. now injection H.
  - right. apply no_data_false in Hc as (d & a & l & -> & L).
    unfold get in H. rewrite L in H. simpl in H.
    rewrite flagged_rows_collect in H.
    apply bind_ok in H as (st & Hst & H).
    apply bind_ok in Hst as (rs & Hrs & Hst). injection Hst as <-.
    injection H as <-. exists rs. split; [|reflexivity].
    apply map_result_length in Hrs. destruct rs; [discriminate | discriminate].
Qed.

(** The same for [format_user_balances] and "No idle assets found". *)
Lemma format_user_balances_results (idle_assets : value) (s : string) :
  format_user_balances tabulate repr idle_assets = Ok s ->
  s = "No idle assets available" \/
  exists rows, rows <> [] /\ s = tabulate rows balance_headers None.
Proof.
  unfold format_user_balances. intros H.
  apply bind_ok in H as (c & Hc & H). destruct c.
  - left. now injection H.
  - right. apply no_data_false in Hc as (d & a & l & -> & L).
    unfold get in H. rewrite L in H. simpl in H.
    rewrite flagged_rows_collect in H.
    apply bind_ok in H as (st & Hst & H).
    apply bind_ok in Hst as (rs & Hrs & Hst). injection Hst as <-.
    injection H as <-. exists rs. split; [|reflexivity].
    apply map_result_length in Hrs. destruct rs; [discriminate | discriminate].
Qed.

(** C3: a deposit option whose [network] is a string makes
    [format_deposit_options] raise AttributeError: the string has no
    [get].  The claim's Network column for it is the string itself. *)
Theorem network_string_raises :
  format_deposit_options tabulate
    (VDict [("userBalances", VList [VDict
       [("asset", VDict [("symbol", VStr "USDC"); ("balanceUsd", VStr "1234.5")]);
        ("depositOptions", VList [VDict
           [("name", VStr "Vault"); ("network", VStr "mainnet")]])]])])
  = Raise AttributeError.
Proof. reflexivity. Qed.

(** The Network column when [network] is a mapping or missing: its
    [name], or "N/A". *)
Lemma network_column (b o : list (string * value)) (r : row) :
  deposit_option_row (VDict b) (VDict o) = Ok r ->
  nth_error r 2 =
    Some match lookup "network" o with
         | Some (VDict n) => match lookup "name" n with Some v => v | None => VStr "N/A" end
         | _ => VStr "N/A"
         end.
Proof.
  unfold deposit_option_row. intros H.
  repeat (apply bind_ok in H as (? & ? & H)).
  injection H as <-. simpl.
  match goal with
  | E : get (VDict o) "network" _ = Ok ?n, F : get ?n "name" _ = Ok ?v |- _ =>
      unfold get in E; injection E as <-;
      destruct (lookup "network" o) as [[| | | | | |n]|]; simpl in F;
      try discriminate; injection F as <-; reflexivity
  end.
Qed.

(** C4: [None] and [0] are rendered "N/A"; "1234.5" is rendered
    "$1234.50". *)
Theorem balance_usd_formatted_examples :
  balance_usd_formatted VNone = Ok (VStr "N/A") /\
  balance_usd_formatted (VInt 0) = Ok (VStr "N/A") /\
  balance_usd_formatted (VStr "1234.5") = Ok (VStr "$1234.50").
Proof. repeat split; vm_compute; reflexivity. Qed.

(** C10: when [userBalances] is a non-empty list of mappings whose
    [depositOptions] is missing or empty (an empty list, or another
    empty sequence), the result is the table of the headers with no
    row; there is no message for it. *)
Theorem no_deposit_options_empty_table
    (d : list (string * value)) (entries : list value) :
  lookup "userBalances" d = Some (VList entries) ->
  entries <> [] ->
  (forall e, In e entries ->
     exists b, e = VDict b /\
       (lookup "depositOptions" b = None \/
        exists v, lookup "depositOptions" b = Some v /\ iter v = Ok [])) ->
  format_deposit_options tabulate (VDict d)
  = Ok (tabulate no_rows deposit_headers None).
Proof.
  intros L Hne He. unfold format_deposit_options.
  destruct d as [|kv d]; [discriminate|].
  cbn [truthy negb]. unfold get. rewrite L. simpl.
  destruct entries as [|e0 es]; [congruence|]. simpl truthy. simpl negb. cbv iota.
  simpl bind at 1.
  unfold deposit_table. rewrite for_each_unchanged; [reflexivity|].
  intros x Hx. destruct (He x Hx) as (b & -> & [N|(v & N & I)]);
    cbn [get bind]; rewrite N; [reflexivity|].
  rewrite I. reflexivity.
Qed.

End Properties.

Lemma no_deposit_options_empty_table_witness :
  format_deposit_options sample_tabulate
    (VDict [("userBalances", VList [VDict [("asset", VDict [("symbol", VStr "USDC")])];
                                   VDict [("depositOptions", VList [])]])])
  = Ok (sample_tabulate no_rows deposit_headers None).
Proof.
  eapply no_deposit_options_empty_table.
  - reflexivity.
  - discriminate.
  - intros e [<-|[<-|[]]]; eexists; (split; [reflexivity|]).
    + left. reflexivity.
    + right. exists (VList []). split; reflexivity.
Defined.

(** ** Fixed-point formatting *)

Lemma round_half_even_nearest (num den : Z) :
  0 < den -> 2 * Z.abs (round_half_even num den * den - num) <= den.
Proof.
  intros Hd. unfold round_half_even.
  pose proof (Z.div_mod num den ltac:(lia)) as E.
  pose proof (Z.mod_pos_bound num den Hd) as B.
  destruct (Z.compare_spec (2 * (num mod den)) den) as [C|C|C];
    [destruct (Z.even (num / den))| |]; nia.
Qed.

Lemma scaled_nearest (digits : nat) (m : positive) (e : Z) :
  nearest_scaled digits m e (scaled digits m e).
Proof.
  unfold nearest_scaled, scaled.
  destruct (Z.leb_spec 0 e) as [H|H].
  - rewrite (Z.max_l 0 (- e)) by lia. rewrite (Z.max_r 0 e) by lia.
    rewrite Z.pow_0_r. rewrite Z.mul_1_r, Z.sub_diag. simpl. lia.
  - rewrite (Z.max_r 0 (- e)) by lia. rewrite (Z.max_l 0 e) by lia.
    rewrite Z.pow_0_r, Z.mul_1_r.
    apply round_half_even_nearest. apply Z.pow_pos_nonneg; lia.
Qed.





(** ** The scalar renderings on well-shaped fields *)



Section Renderings.

Variable repr : value -> string.




Lemma vault_name_short_str (s : string) (limit : Z) :
  0 <= limit ->
  vault_name_short (VStr s) limit = Ok (VStr (shortenName s (Z.to_nat limit))).
Proof.
  intros H. unfold vault_name_short, shortenName. simpl.
  destruct (Z.ltb_spec limit (Z.of_nat (String.length s)));
    destruct (Nat.ltb_spec (Z.to_nat limit) (String.length s)); try lia.
  - simpl. now rewrite slice_stop_nonneg.
  - reflexivity.
Qed.









End Renderings.

(** ** Row counts and order *)





Section RowCounts.

Variable tabulate : list row -> list string -> option (list Z) -> string.
Variable repr : value -> string.

Lemma format_deposit_options_rows (d : list (string * value)) (entries : list value) :
  lookup "userBalances" d = Some (VList entries) ->
  entries <> [] ->
  format_deposit_options tabulate (VDict d)
  = (table_data <- deposit_table entries ;;
     Ok (tabulate table_data deposit_headers None)).
Proof.
  intros L Hne. unfold format_deposit_options.
  destruct d as [|kv d]; [discriminate|].
  cbn [truthy negb]. unfold get. rewrite L.
  destruct entries as [|e es]; [congruence|]. reflexivity.
Qed.


End RowCounts.


(** ** The transaction table *)

Section TransactionTable.

Variable tabulate : list row -> list string -> option (list Z) -> string.
Variable repr : value -> string.

Lemma property_rows_collect (d : list (string * value)) (table_data : list row) :
  for_each d (fun kv => property_row repr (fst kv) (snd kv)) table_data
  = Ok (table_data ++ field_rows repr d)%list.
Proof.
  revert table_data; induction d as [|[k v] d IH]; intros td; simpl.
  - now rewrite app_nil_r.
  - unfold property_row at 1. cbn [fst snd].
    destruct (k =? "actions")%string; cbn [bind].
    + apply IH.
    + destruct (is_none v || eq_empty_str v); cbn [bind].
      * rewrite IH. unfold append_row. now rewrite <- app_assoc.
      * rewrite truncate_value_str by lia. cbn [bind].
        rewrite IH. unfold append_row. now rewrite <- app_assoc.
Qed.

Lemma tx_rows_collect (tx : list (string * value)) (table_data : list row) :
  for_each tx (tx_row repr) table_data
  = Ok (table_data ++
        map (fun kv : string * value =>
               [VStr ("  " ++ fst kv);
                VStr (truncate (fst kv) (str repr (snd kv)) 50)]) tx)%list.
Proof.
  revert table_data; induction tx as [|[k v] tx IH]; intros td; simpl.
  - now rewrite app_nil_r.
  - rewrite truncate_value_str by lia. cbn [bind].
    rewrite IH. unfold append_row. now rewrite <- app_assoc.
Qed.

(** The rows the loop body appends for a well-shaped mapping action:
    its block, and a spacer unless it is the last. *)
Lemma action_rows_dict (n i : nat) (a : list (string * value)) (table_data : list row) :
  wf_action (VDict a) = true ->
  action_rows repr n i (VDict a) table_data
  = Ok (table_data ++ action_block repr (i + 1) a ++
        (if Z.of_nat i <? Z.of_nat n - 1 then [blank_row] else []))%list.
Proof.
  unfold wf_action. rewrite andb_true_iff. intros [Hn Ht].
  unfold action_rows, action_block. cbn [is_dict get bind].
  unfold opt_str in Hn. unfold opt_dict in Ht. unfold action_label.
  assert (E : truncate_value "name"
                match lookup "name" a with
                | Some v => v
                | None => VStr ("Action " ++ dec (N.of_nat (i + 1)))
                end 60
              = Ok (VStr (shortenName
                            match lookup "name" a with
                            | Some (VStr s) => s
                            | _ => "Action " ++ dec (N.of_nat (i + 1))
                            end 60))).
  { destruct (lookup "name" a) as [[| | | |s| |]|]; try discriminate;
      rewrite truncate_value_str by lia; reflexivity. }
  rewrite E. cbn [bind].
  destruct (lookup "tx" a) as [[| | | | | |tx]|]; try discriminate;
    cbn [items bind]; rewrite tx_rows_collect; cbn [bind]; unfold append_row;
    destruct (Z.of_nat i <? Z.of_nat n - 1);
    rewrite <- ?app_assoc; simpl; rewrite ?app_nil_r; reflexivity.
Qed.


(** The loop over the actions, all of them well-shaped mappings: their
    blocks with a spacer between consecutive ones. *)
Lemma actions_loop (actions : list value) :
  forall (i : nat) (table_data : list row),
  forallb wf_action actions = true ->
  for_enumerate i actions (action_rows repr (i + List.length actions)) table_data
  = Ok (table_data ++ action_blocks repr (i + 1) (dicts_of actions))%list.
Proof.
  induction actions as [|a rest IH]; intros i td H.
  - simpl. now rewrite app_nil_r.
  - cbn [forallb] in H. apply andb_true_iff in H as [Ha Hrest].
    destruct a as [| | | | | |a]; try discriminate.
    cbn [for_enumerate]. rewrite (action_rows_dict _ _ _ _ Ha). cbn [bind].
    replace (i + List.length (VDict a :: rest))%nat
      with (S i + List.length rest)%nat by (simpl; lia).
    rewrite (IH (S i) _ Hrest).
    destruct rest as [|a' rest'].
    + simpl List.length.
      destruct (Z.ltb_spec (Z.of_nat i) (Z.of_nat (S i + 0) - 1)); [lia|].
      simpl. now rewrite !app_nil_r.
    + destruct (Z.ltb_spec (Z.of_nat i)
                  (Z.of_nat (S i + List.length (a' :: rest')) - 1));
        [|simpl List.length in *; lia].
      cbn [forallb] in Hrest. apply andb_true_iff in Hrest as [Ha' _].
      destruct a' as [| | | | | |a']; try discriminate.
      cbn [dicts_of]. cbn [action_blocks].
      change (S i + 1)%nat with (S (i + 1)).
      rewrite <- !app_assoc. reflexivity.
Qed.

(** C8, as amended: when [actions] is a list of mappings, each with a
    string [name] or none and a mapping [tx] or none, the table is the
    rows of the other fields, a blank row, the ["Total Actions", count]
    row, a blank row, then the block of each action in order, numbered
    from 1, a blank row between consecutive actions and none after the
    last. *)
Theorem transaction_actions_rendered
    (d : list (string * value)) (actions : list value) :
  lookup_list "actions" d = Some actions ->
  forallb wf_action actions = true ->
  format_transaction_blob tabulate repr (VDict d)
  = Ok (transaction_banner ++
        tabulate
          (field_rows repr d ++
           blank_row :: total_row (List.length actions) :: blank_row ::
           action_blocks repr 1 (dicts_of actions))%list
          transaction_headers (Some [20; 60])).
Proof.
  intros L W. unfold format_transaction_blob.
  destruct d as [|kv d]; [discriminate|].
  cbn [truthy is_dict negb orb items bind].
  unfold transaction_table. rewrite property_rows_collect. cbn [bind].
  rewrite L. rewrite (actions_loop actions 0 _ W). cbn [bind].
  unfold append_row, total_row. rewrite <- !app_assoc. reflexivity.
Qed.

End TransactionTable.

Lemma transaction_actions_rendered_witness :
  format_transaction_blob sample_tabulate sample_repr (VDict sample_transaction_fields)
  = Ok (transaction_banner ++
        sample_tabulate
          (field_rows sample_repr sample_transaction_fields ++
           blank_row :: total_row (List.length sample_actions) :: blank_row ::
           action_blocks sample_repr 1 (dicts_of sample_actions))%list
          transaction_headers (Some [20; 60])).
Proof.
  apply (transaction_actions_rendered sample_tabulate sample_repr
           sample_transaction_fields sample_actions); reflexivity.
Defined.

(** C8, as stated, fails: a mapping action whose [name] is null raises
    TypeError, and between two actions that are not mappings no
    spacer row is appended. *)
Lemma transaction_actions_counterexample :
  format_transaction_blob sample_tabulate sample_repr
    (VDict [("actions", VList [VDict [("name", VNone)]])])
  = Raise TypeError /\
  transaction_table sample_repr [("actions", VList [VStr "a"; VStr "b"])]
  = Ok [blank_row; total_row 2; blank_row;
        [VStr "Action 1"; VStr "a"]; [VStr "Action 2"; VStr "b"]].
Proof. split; reflexivity. Qed.

(** ** The formatters on well-shaped payloads *)


Section Totality.

Variable tabulate : list row -> list string -> option (list Z) -> string.
Variable repr : value -> string.







End Totality.



(** ** The log of a run *)

Lemma extends_ret {A} (a : A) : extends (io_ret a).
Proof. intros log. exists []. simpl. now rewrite app_nil_r. Qed.

Lemma extends_lift {A} (r : result A) : extends (lift r).
Proof. intros log. exists []. simpl. now rewrite app_nil_r. Qed.

Lemma extends_print (s : string) : extends (print s).
Proof. intros log. now exists [Printed s]. Qed.

Lemma extends_bind {A B} (c : io A) (k : A -> io B) :
  extends c -> (forall a, extends (k a)) -> extends (io_bind c k).
Proof.
  intros Hc Hk log. unfold io_bind.
  destruct (Hc log) as [ev1 E1]. destruct (c log) as [[a|e] log1]; simpl in E1; subst.
  - destruct (Hk a (log ++ ev1)%list) as [ev2 E2].
    exists (ev1 ++ ev2)%list. now rewrite E2, app_assoc.
  - now exists ev1.
Qed.

Lemma extends_try {A} (body : io A) (handler : exn -> io A) :
  extends body -> (forall e, extends (handler e)) -> extends (try_except body handler).
Proof.
  intros Hb Hh log. unfold try_except.
  destruct (Hb log) as [ev1 E1]. destruct (body log) as [[a|e] log1]; simpl in E1; subst.
  - now exists ev1.
  - destruct (Hh e (log ++ ev1)%list) as [ev2 E2].
    exists (ev1 ++ ev2)%list. now rewrite E2, app_assoc.
Qed.

(** An event logged by [c] is still in the log after [k]. *)
Lemma logged_bind {A B} (c : io A) (k : A -> io B) (ev : event) (log : list event) :
  In ev (snd (c log)) -> (forall a, extends (k a)) -> In ev (snd (io_bind c k log)).
Proof.
  intros H Hk. unfold io_bind. destruct (c log) as [[a|e] log1]; simpl in *.
  - destruct (Hk a log1) as [ev2 ->]. apply in_or_app. now left.
  - assumption.
Qed.

Ltac extends_tac :=
  repeat first
    [ apply extends_bind; [|intros ?]
    | apply extends_try; [|intros ?]
    | apply extends_ret | apply extends_lift | apply extends_print ].

Section DriverProperties.

Variable tabulate : list row -> list string -> option (list Z) -> string.
Variable repr : value -> string.
Variable exn_str : exn -> string.
Variable VaultsSdk : string -> client.

Lemma extends_request (cl : client) (c : call) : extends (request cl c).
Proof. intros log. now exists [Requested c]. Qed.

(** A step that catches every exception returns. *)
Lemma try_except_returns {A} (body : io A) (handler : exn -> io A) :
  extends body ->
  (forall e log, exists a events, handler e log = (Ok a, (log ++ events)%list)) ->
  forall log, exists a events,
    try_except body handler log = (Ok a, (log ++ events)%list).
Proof.
  intros Hb Hh log. unfold try_except.
  destruct (Hb log) as [ev1 E1]. destruct (body log) as [[a|e] log1]; simpl in E1; subst.
  - eauto.
  - destruct (Hh e (log ++ ev1)%list) as (a & ev2 & ->).
    exists a, (ev1 ++ ev2)%list. now rewrite app_assoc.
Qed.

Lemma get_user_balances_returns (cl : client) (log : list event) :
  exists v events,
    get_user_balances tabulate repr exn_str cl log = (Ok v, (log ++ events)%list).
Proof.
  apply try_except_returns.
  - extends_tac. apply extends_request.
  - intros e l. eexists. eexists. reflexivity.
Qed.

(** Step 1 hands the response to the driver when it was fetched and
    rendered. *)
Lemma get_best_deposit_options_rendered
    (cl : client) (top : value) (s : string) (log : list event) :
  cl (GetDepositOptions USER_ADDRESS ["USDC"; "USDS"]) = Ok top ->
  format_deposit_options tabulate top = Ok s ->
  exists events,
    get_best_deposit_options tabulate exn_str cl log = (Ok top, (log ++ events)%list).
Proof.
  intros Hc Hf.
  unfold get_best_deposit_options, try_except, io_bind, request, print, lift, io_ret.
  rewrite Hc, Hf. eexists. rewrite <- !app_assoc. reflexivity.
Qed.

Lemma generate_logs_request (cl : client) (vault_address : value) (amount : string)
    (user_address : string) (network asset_address : value) (log : list event) :
  In (Requested (GetActions "deposit" user_address network vault_address amount
                   asset_address false))
     (snd (generate_deposit_transaction_with_asset tabulate repr exn_str cl
             vault_address amount user_address network asset_address log)).
Proof.
  unfold generate_deposit_transaction_with_asset, try_except.
  set (rq := GetActions _ _ _ _ _ _ _).
  assert (F : forall (k : value -> io value),
            (forall a, extends (k a)) ->
            In (Requested rq) (snd (io_bind (request cl rq) k log))).
  { intros k Hk. apply logged_bind; [|assumption].
    simpl. apply in_or_app. right. now left. }
  match goal with
  | |- context [io_bind (request cl rq) ?k log] =>
      specialize (F k ltac:(intros a; extends_tac));
      destruct (io_bind (request cl rq) k log) as [[a|e] log1]
  end.
  - exact F.
  - simpl in *.
    unfold io_bind, print, io_ret. simpl. apply in_or_app. now left.
Qed.

Lemma io_bind_ok {A B} (c : io A) (k : A -> io B) (a : A) (log log' : list event) :
  c log = (Ok a, log') -> io_bind c k log = k a log'.
Proof. intros H. unfold io_bind. now rewrite H. Qed.

Lemma extends_in {A} (c : io A) (ev : event) (log : list event) :
  extends c -> In ev log -> In ev (snd (c log)).
Proof.
  intros H Hin. destruct (H log) as [events ->]. apply in_or_app. now left.
Qed.

Lemma Forall2_nth_error_l {A B} (R : A -> B -> Prop) (l : list A) (rs : list B)
    (i : nat) (x : A) :
  Forall2 R l rs -> nth_error l i = Some x -> exists r, R x r.
Proof.
  intros F. revert i. induction F as [|y r l rs Hr F IH]; intros [|i]; simpl;
    try discriminate.
  - intros [= <-]. eauto.
  - apply IH.
Qed.

(** A rendered response has a row for each option of its first entry. *)
Lemma rendered_option_row (d fa : list (string * value)) (rest opts : list value)
    (i : nat) (o : value) (s : string) :
  format_deposit_options tabulate (VDict d) = Ok s ->
  lookup "userBalances" d = Some (VList (VDict fa :: rest)) ->
  lookup "depositOptions" fa = Some (VList opts) ->
  nth_error opts i = Some o ->
  exists r, deposit_option_row (VDict fa) o = Ok r.
Proof.
  intros Hf Lu Lo Hn.
  rewrite (format_deposit_options_rows tabulate d _ Lu) in Hf by discriminate.
  apply bind_ok in Hf as (rows & Hrows & _).
  rewrite deposit_table_collect in Hrows.
  apply bind_ok in Hrows as (rss & Hrss & _).
  cbn [map_result] in Hrss. apply bind_ok in Hrss as (rs & Hrs & _).
  unfold entry_rows, get in Hrs. rewrite Lo in Hrs. cbn [iter bind] in Hrs.
  apply map_result_Forall2 in Hrs.
  exact (Forall2_nth_error_l _ _ _ _ _ Hrs Hn).
Qed.

(** What a rendered row tells about the option and its entry: both are
    mappings, [asset] and [network] are mappings when present, and
    the driver resolves a network. *)
Lemma deposit_option_row_shape (fa : list (string * value)) (o : value) (r : row) :
  deposit_option_row (VDict fa) o = Ok r ->
  exists od a net,
    o = VDict od /\
    field_or "asset" fa (VDict []) = VDict a /\
    resolve_network o = Ok net.
Proof.
  unfold deposit_option_row. intros H.
  apply bind_ok in H as (asset & Ha & H).
  apply bind_ok in H as (sym & Hsym & H).
  apply bind_ok in H as (asset' & _ & H).
  apply bind_ok in H as (usd & _ & H).
  apply bind_ok in H as (usdf & _ & H).
  apply bind_ok in H as (network & Hn & H).
  apply bind_ok in H as (nname & Hnn & _).
  destruct o as [| | | | | |od]; try discriminate.
  cbn [get] in Ha, Hn. injection Ha as <-. injection Hn as <-.
  fold (field_or "asset" fa (VDict [])) in Hsym |- *.
  destruct (field_or "asset" fa (VDict [])) as [| | | | | |a]; try discriminate.
  unfold resolve_network. cbn [get bind].
  destruct (lookup "network" od) as [[| | | | | |n]|]; try discriminate.
  - exists od, a. destruct (truthy (VDict n)); cbn [is_str is_dict get]; eauto.
  - exists od, a. cbn [truthy]. eauto.
Qed.

(** Step 2 on a rendered response whose first entry has a third option:
    the line naming that option is printed, then the transaction is
    requested for its address or the missing address is reported. *)
Lemma deposit_step_selects (cl : client) (d fa od a : list (string * value))
    (rest opts : list value) (net : value) (log : list event) :
  lookup "userBalances" d = Some (VList (VDict fa :: rest)) ->
  lookup "depositOptions" fa = Some (VList opts) ->
  nth_error opts 2 = Some (VDict od) ->
  field_or "asset" fa (VDict []) = VDict a ->
  resolve_network (VDict od) = Ok net ->
  deposit_step tabulate repr exn_str cl (VDict d) log
  = (if truthy (field_or "address" od VNone) && truthy (field_or "address" a VNone)
     then
       _ <~ generate_deposit_transaction_with_asset tabulate repr exn_str cl
              (field_or "address" od VNone) "1000000" USER_ADDRESS net
              (field_or "address" a VNone) ;;
       io_ret tt
     else
       _ <~ print "❌ Could not find vault address or asset address in deposit option" ;;
       _ <~ print ("Vault address: " ++ str repr (field_or "address" od VNone)) ;;
       print ("Asset address: " ++ str repr (field_or "address" a VNone)))
    (log ++ [Printed (generating_line repr od)])%list.
Proof.
  intros Lu Lo Hn Ha Hnet. unfold deposit_step.
  destruct d as [|kv d]; [discriminate|].
  cbn [truthy]. unfold get at 1. rewrite Lu.
  unfold lift at 1. unfold io_bind at 1.
  cbn [truthy len bind]. unfold lift at 1. unfold io_bind at 1.
  replace (0 <? Z.of_nat (List.length (VDict fa :: rest))) with true
    by (symmetry; apply Z.ltb_lt; simpl List.length; lia).
  cbn [index nth_error]. unfold lift at 1. unfold io_bind at 1.
  unfold get at 1. rewrite Lo. unfold lift at 1. unfold io_bind at 1.
  cbn [len]. unfold lift at 1. unfold io_bind at 1.
  assert (L3 : (3 <=? Z.of_nat (List.length opts)) = true).
  { apply Z.leb_le. destruct opts as [|? [|? [|? ?]]]; try discriminate.
    simpl List.length. lia. }
  rewrite L3. cbn [index]. rewrite Hn.
  unfold lift at 1. unfold io_bind at 1.
  cbn [get]. unfold lift at 1. unfold io_bind at 1.
  unfold print at 1. unfold io_bind at 1.
  unfold lift at 1. unfold io_bind at 1.
  fold (field_or "asset" fa (VDict [])). rewrite Ha.
  unfold lift at 1. unfold io_bind at 1.
  cbn [get]. unfold lift at 1. unfold io_bind at 1.
  rewrite Hnet. unfold lift at 1. unfold io_bind at 1.
  reflexivity.
Qed.

End DriverProperties.

Section Selection.

Variable tabulate : list row -> list string -> option (list Z) -> string.
Variable repr : value -> string.
Variable exn_str : exn -> string.
Variable VaultsSdk : string -> client.

Lemma print_run (s : string) (log : list event) :
  print s log = (Ok tt, (log ++ [Printed s])%list).
Proof. reflexivity. Qed.

(** C9, as amended: when the deposit-options response was fetched and
    rendered without an exception and its first balance entry has a
    third deposit option, a run prints the line naming that option
    and, when the option and the asset have an address, requests the
    deposit into the option's address; the yields play no part. *)
Theorem driver_selects_third_option
    (getenv : string -> option string) (key s : string)
    (d fa : list (string * value)) (rest opts : list value) (o : value) :
  getenv "VAULTS_FYI_API_KEY" = Some key ->
  key <> "" ->
  VaultsSdk key (GetDepositOptions USER_ADDRESS ["USDC"; "USDS"]) = Ok (VDict d) ->
  format_deposit_options tabulate (VDict d) = Ok s ->
  lookup "userBalances" d = Some (VList (VDict fa :: rest)) ->
  lookup "depositOptions" fa = Some (VList opts) ->
  nth_error opts 2 = Some o ->
  exists od a,
    o = VDict od /\
    field_or "asset" fa (VDict []) = VDict a /\
    let log :=
      snd (run_example_implementation tabulate repr exn_str VaultsSdk getenv []) in
    In (Printed (generating_line repr od)) log /\
    (truthy (field_or "address" od VNone) && truthy (field_or "address" a VNone) = true ->
     exists network,
       In (Requested (GetActions "deposit" USER_ADDRESS network
                        (field_or "address" od VNone) "1000000"
                        (field_or "address" a VNone) false)) log).
Proof.
  intros He Hk Hc Hf Lu Lo Hn.
  destruct (rendered_option_row tabulate d fa rest opts 2 o s Hf Lu Lo Hn) as [r Hr].
  destruct (deposit_option_row_shape fa o r Hr) as (od & a & net & -> & Ha & Hnet).
  exists od, a. split; [reflexivity|]. split; [assumption|].
  cbv zeta. unfold run_example_implementation.
  rewrite (io_bind_ok _ _ _ _ _ (print_run _ _)).
  rewrite He. destruct key as [|c k]; [congruence|].
  rewrite (io_bind_ok _ _ _ _ _ (print_run _ _)).
  match goal with
  | |- context [io_bind (get_user_balances ?t ?r ?e ?cl) _ ?log] =>
      destruct (get_user_balances_returns t r e cl log) as (v & ev & E)
  end.
  rewrite (io_bind_ok _ _ _ _ _ E).
  rewrite (io_bind_ok _ _ _ _ _ (print_run _ _)).
  match goal with
  | |- context [io_bind (get_best_deposit_options ?t ?e ?cl) _ ?log] =>
      destruct (get_best_deposit_options_rendered t e cl (VDict d) s log Hc Hf)
        as (ev' & E')
  end.
  rewrite (io_bind_ok _ _ _ _ _ E').
  assert (R : forall u : unit, extends (
            _ <~ print (nl ++ "💼 3. Checking user positions...") ;;
            _ <~ get_user_positions tabulate exn_str (VaultsSdk (String c k)) ;;
            print (nl ++ "🎉 === Example Implementation Complete === 🎉"))).
  { intros u. extends_tac. apply extends_request. }
  split.
  - apply logged_bind; [|exact R].
    rewrite (deposit_step_selects tabulate repr exn_str _ d fa od a rest opts net _
               Lu Lo Hn Ha Hnet).
    match goal with
    | |- In ?x (snd (?c (?l ++ [?x])%list)) =>
        apply (extends_in c x); [|apply in_or_app; right; now left]
    end.
    destruct (truthy _ && truthy _); extends_tac. apply extends_request.
  - intros Hadd. exists net.
    apply logged_bind; [|exact R].
    rewrite (deposit_step_selects tabulate repr exn_str _ d fa od a rest opts net _
               Lu Lo Hn Ha Hnet).
    rewrite Hadd.
    apply logged_bind; [|intros ?; apply extends_ret].
    apply generate_logs_request.
Qed.

End Selection.

(** Of three options with yields 9%, 5% and 2% the run takes the third. *)
Lemma driver_selects_third_option_witness :
  exists od a,
    sample_option "Vault C" "0xccc" 2 = VDict od /\
    field_or "asset" [("asset", sample_asset); ("depositOptions", VList sample_options)]
      (VDict []) = VDict a /\
    let log :=
      snd (run_example_implementation sample_tabulate sample_repr sample_exn_str
             (fun _ => sample_client (VDict sample_deposit_fields)) sample_getenv []) in
    In (Printed (generating_line sample_repr od)) log /\
    (truthy (field_or "address" od VNone) && truthy (field_or "address" a VNone) = true ->
     exists network,
       In (Requested (GetActions "deposit" USER_ADDRESS network
                        (field_or "address" od VNone) "1000000"
                        (field_or "address" a VNone) false)) log).
Proof.
  eapply (driver_selects_third_option sample_tabulate sample_repr sample_exn_str
            (fun _ => sample_client (VDict sample_deposit_fields)) sample_getenv "key"
            _ sample_deposit_fields
            [("asset", sample_asset); ("depositOptions", VList sample_options)]
            _ sample_options).
  - reflexivity.
  - discriminate.
  - reflexivity.
  - vm_compute. reflexivity.
  - reflexivity.
  - reflexivity.
  - reflexivity.
Defined.

(** C9, as stated, fails: when an option of the first entry makes the
    rendering raise (a yield that is not a number, or its network
    given as a string), step 1 reports the error and hands the driver no
    response; the run prints that no deposit options are available and
    requests no transaction, although the entry has three options. *)
Lemma driver_selects_nothing :
  snd (run_example_implementation sample_tabulate sample_repr sample_exn_str
         (fun _ => sample_client text_yield_response) sample_getenv [])
  = log_without_selection /\
  snd (run_example_implementation sample_tabulate sample_repr sample_exn_str
         (fun _ => sample_client string_network_response) sample_getenv [])
  = log_without_selection.
Proof. split; vm_compute; reflexivity. Qed.

(** ** Further properties of the formatters *)

Section Guards.

Variable tabulate : list row -> list string -> option (list Z) -> string.
Variable repr : value -> string.

(** X1: whatever [format_positions] and [format_user_balances] return
    is the message of the guard or a table of at least one row; the
    messages of the [has_positions] and [has_balances] flags are never
    returned. *)
Theorem tables_have_a_row (positions idle_assets : value) (s1 s2 : string) :
  format_positions tabulate positions = Ok s1 ->
  format_user_balances tabulate repr idle_assets = Ok s2 ->
  (s1 = "No positions available" \/
   exists rows, rows <> [] /\ s1 = tabulate rows position_headers None) /\
  (s2 = "No idle assets available" \/
   exists rows, rows <> [] /\ s2 = tabulate rows balance_headers None).
Proof.
  intros H1 H2. split.
  - exact (format_positions_results tabulate positions s1 H1).
  - exact (format_user_balances_results tabulate repr idle_assets s2 H2).
Qed.

Lemma no_data_true (x : value) :
  (truthy x = false \/
   exists d, x = VDict d /\ forall a l, lookup "data" d <> Some (VList (a :: l))) ->
  no_data x = Ok true.
Proof.
  unfold no_data. intros [T|(d & -> & H)]; [now rewrite T|].
  destruct (truthy (VDict d)); [|reflexivity]. cbn [negb get bind].
  destruct (lookup "data" d) as [v|] eqn:L; [|reflexivity].
  destruct (truthy v) eqn:Tv; [|reflexivity]. cbn [negb].
  destruct v as [| | | | |l|]; try reflexivity.
  destruct l as [|a l]; [discriminate|]. now destruct (H a l).
Qed.

(** X2: a payload that is not true (None, an empty mapping), or a
    mapping whose [data] is missing, null, empty or anything but a list
    with an item, gets the message of the guard from both list
    formatters; nothing is raised. *)
Theorem missing_data_reported (x : value) :
  (truthy x = false \/
   exists d, x = VDict d /\ forall a l, lookup "data" d <> Some (VList (a :: l))) ->
  format_positions tabulate x = Ok "No positions available" /\
  format_user_balances tabulate repr x = Ok "No idle assets available".
Proof.
  intros H. unfold format_positions, format_user_balances.
  rewrite (no_data_true x H). split; reflexivity.
Qed.

(** X3: a payload that is true and not a mapping (a non-empty list or
    string, a number) makes the three list formatters raise
    AttributeError at their first [get]; [format_transaction_blob]
    alone tests the type and returns its message. *)
Theorem payload_not_a_mapping (x : value) :
  truthy x = true ->
  is_dict x = false ->
  format_positions tabulate x = Raise AttributeError /\
  format_user_balances tabulate repr x = Raise AttributeError /\
  format_deposit_options tabulate x = Raise AttributeError /\
  format_transaction_blob tabulate repr x = Ok "No transaction data available".
Proof.
  intros T D.
  unfold format_positions, format_user_balances, format_deposit_options,
    format_transaction_blob, no_data.
  rewrite T, D. destruct x; try discriminate; repeat split; reflexivity.
Qed.

(** X4: [format_deposit_options] has no test for a list: a
    [userBalances] that is true and not a list raises, TypeError when
    it cannot be iterated, AttributeError at the first character or key
    when it is a string or a mapping. *)
Theorem user_balances_not_a_list_raises (d : list (string * value)) (v : value) :
  lookup "userBalances" d = Some v ->
  truthy v = true ->
  is_list v = false ->
  format_deposit_options tabulate (VDict d)
  = Raise (if is_str v || is_dict v then AttributeError else TypeError).
Proof.
  intros L T N. unfold format_deposit_options.
  destruct d as [|kv d]; [discriminate|].
  cbn [truthy negb]. unfold get. rewrite L. cbn [bind]. rewrite T. cbn [negb bind].
  destruct v as [|b|z|f|s|l|m]; try discriminate; try reflexivity.
  - destruct s as [|c s]; [discriminate|]. reflexivity.
  - destruct m as [|[k v] m]; [discriminate|]. reflexivity.
Qed.

End Guards.

Lemma tables_have_a_row_witness :
  ("6 columns, 1 rows" = "No positions available" \/
   exists rows, rows <> [] /\
     "6 columns, 1 rows" = sample_tabulate rows position_headers None) /\
  ("No idle assets available" = "No idle assets available" \/
   exists rows, rows <> [] /\
     "No idle assets available" = sample_tabulate rows balance_headers None).
Proof.
  apply (tables_have_a_row sample_tabulate sample_repr
           (VDict [("data", VList sample_positions)]) VNone);
    vm_compute; reflexivity.
Defined.

Lemma missing_data_reported_witness :
  format_positions sample_tabulate (VDict [("data", VStr "none")])
  = Ok "No positions available" /\
  format_user_balances sample_tabulate sample_repr (VDict [("data", VStr "none")])
  = Ok "No idle assets available".
Proof.
  apply (missing_data_reported sample_tabulate sample_repr).
  right. eexists. split; [reflexivity|]. intros a l. discriminate.
Defined.

Lemma payload_not_a_mapping_witness :
  format_positions sample_tabulate (VList [VInt 1]) = Raise AttributeError /\
  format_user_balances sample_tabulate sample_repr (VList [VInt 1])
  = Raise AttributeError /\
  format_deposit_options sample_tabulate (VList [VInt 1]) = Raise AttributeError /\
  format_transaction_blob sample_tabulate sample_repr (VList [VInt 1])
  = Ok "No transaction data available".
Proof.
  apply (payload_not_a_mapping sample_tabulate sample_repr (VList [VInt 1]));
    reflexivity.
Defined.

Lemma user_balances_not_a_list_raises_witness :
  format_deposit_options sample_tabulate (VDict [("userBalances", VStr "USDC")])
  = Raise AttributeError.
Proof.
  apply (user_balances_not_a_list_raises sample_tabulate
           [("userBalances", VStr "USDC")] (VStr "USDC")); reflexivity.
Defined.

(** ** Further properties of the tables *)

Lemma for_each_inv {A St} (P : St -> Prop) (body : A -> St -> result St)
    (l : list A) :
  (forall x s1 s2, P s1 -> body x s1 = Ok s2 -> P s2) ->
  forall s s', P s -> for_each l body s = Ok s' -> P s'.
Proof.
  intros Hb. induction l as [|x l IH]; simpl; intros s s' Hs H.
  - now injection H as <-.
  - apply bind_ok in H as (s1 & H1 & H). eapply IH; [|eassumption]. eauto.
Qed.

Lemma for_enumerate_inv {A St} (P : St -> Prop) (body : nat -> A -> St -> result St)
    (l : list A) :
  (forall i x s1 s2, P s1 -> body i x s1 = Ok s2 -> P s2) ->
  forall i s s', P s -> for_enumerate i l body s = Ok s' -> P s'.
Proof.
  intros Hb. induction l as [|x l IH]; simpl; intros i s s' Hs H.
  - now injection H as <-.
  - apply bind_ok in H as (s1 & H1 & H). eapply IH; [|eassumption]. eauto.
Qed.

Lemma Forall_append_row (P : row -> Prop) (table_data : list row) (r : row) :
  Forall P table_data -> P r -> Forall P (append_row table_data r).
Proof. intros H Hr. unfold append_row. apply Forall_app. auto. Qed.

Lemma map_result_Forall {A B} (P : B -> Prop) (f : A -> result B) (l : list A)
    (rs : list B) :
  (forall x r, f x = Ok r -> P r) -> map_result f l = Ok rs -> Forall P rs.
Proof.
  intros Hf H. apply map_result_Forall2 in H.
  induction H; constructor; eauto.
Qed.

Section Tables.

Variable tabulate : list row -> list string -> option (list Z) -> string.
Variable repr : value -> string.

Lemma transaction_table_cells (d : list (string * value)) (rows : list row) :
  transaction_table repr d = Ok rows ->
  Forall (fun r => List.length r = 2%nat) rows.
Proof.
  unfold transaction_table. intros H.
  apply bind_ok in H as (td & Htd & H).
  assert (P0 : Forall (fun r : row => List.length r = 2%nat) td).
  { revert Htd. apply for_each_inv; [|constructor].
    intros [k v] s1 s2 P1. unfold property_row. cbn [fst snd].
    destruct (k =? "actions")%string; [now intros [= <-]|].
    destruct (is_none v || eq_empty_str v).
    - intros [= <-]. now apply Forall_append_row.
    - intros E. apply bind_ok in E as (fv & _ & [= <-]).
      now apply Forall_append_row. }
  destruct (lookup_list "actions" d) as [actions|]; [|now injection H as <-].
  revert H. apply for_enumerate_inv.
  - intros i a s1 s2 P1. unfold action_rows.
    destruct (is_dict a).
    + intros E. apply bind_ok in E as (nm & _ & E).
      apply bind_ok in E as (tn & _ & E).
      apply bind_ok in E as (tx & _ & E).
      apply bind_ok in E as (txi & _ & E).
      apply bind_ok in E as (s3 & Hs3 & E).
      assert (P3 : Forall (fun r : row => List.length r = 2%nat) s3).
      { revert Hs3. apply for_each_inv.
        - intros [k v] t1 t2 Pt. unfold tx_row. intros F.
          apply bind_ok in F as (fv & _ & [= <-]). now apply Forall_append_row.
        - now apply Forall_append_row. }
      destruct (Z.of_nat i <? Z.of_nat (List.length actions) - 1);
        injection E as <-; [now apply Forall_append_row | assumption].
    + intros E. apply bind_ok in E as (ta & _ & [= <-]).
      now apply Forall_append_row.
  - repeat apply Forall_append_row; auto.
Qed.

Lemma deposit_option_row_cells (balance option : value) (r : row) :
  deposit_option_row balance option = Ok r -> List.length r = 6%nat.
Proof.
  unfold deposit_option_row. intros H.
  repeat (apply bind_ok in H as (? & _ & H)). now injection H as <-.
Qed.

Lemma position_row_cells (position : value) (r : row) :
  position_row position = Ok r -> List.length r = 6%nat.
Proof.
  unfold position_row. intros H.
  repeat (apply bind_ok in H as (? & _ & H)). now injection H as <-.
Qed.

Lemma balance_row_cells (asset : value) (r : row) :
  balance_row repr asset = Ok r -> List.length r = 4%nat.
Proof.
  unfold balance_row. intros H.
  repeat (apply bind_ok in H as (? & _ & H)). now injection H as <-.
Qed.

(** X5: whenever a table is built, on any payload, each of its rows
    has as many cells as the table has headers: 2 for the transaction,
    6 for the deposit options and the positions, 4 for the balances. *)
Theorem rows_match_headers
    (d : list (string * value)) (balances positions assets : list value)
    (rows1 rows2 : list row) (st3 st4 : bool * list row) :
  transaction_table repr d = Ok rows1 ->
  deposit_table balances = Ok rows2 ->
  flagged_rows position_row positions = Ok st3 ->
  flagged_rows (balance_row repr) assets = Ok st4 ->
  Forall (fun r => List.length r = List.length transaction_headers) rows1 /\
  Forall (fun r => List.length r = List.length deposit_headers) rows2 /\
  Forall (fun r => List.length r = List.length position_headers) (snd st3) /\
  Forall (fun r => List.length r = List.length balance_headers) (snd st4).
Proof.
  intros H1 H2 H3 H4. repeat split.
  - exact (transaction_table_cells d rows1 H1).
  - rewrite deposit_table_collect in H2.
    apply bind_ok in H2 as (rss & Hrss & [= <-]).
    apply Forall_concat.
    revert Hrss. apply map_result_Forall. intros b rs. unfold entry_rows. intros E.
    apply bind_ok in E as (o & _ & E). apply bind_ok in E as (os & _ & E).
    revert E. apply map_result_Forall. apply deposit_option_row_cells.
  - rewrite flagged_rows_collect in H3.
    apply bind_ok in H3 as (rs & Hrs & [= <-]).
    revert Hrs. apply map_result_Forall. apply position_row_cells.
  - rewrite flagged_rows_collect in H4.
    apply bind_ok in H4 as (rs & Hrs & [= <-]).
    revert Hrs. apply map_result_Forall. apply balance_row_cells.
Qed.


(** X7: [format_transaction_blob] returns its message exactly for a
    payload that is not true or not a mapping; a table never reads as
    the message, since it starts with the line break of the banner. *)
Theorem transaction_message_iff (transaction : value) :
  format_transaction_blob tabulate repr transaction
  = Ok "No transaction data available"
  <-> truthy transaction = false \/ is_dict transaction = false.
Proof.
  unfold format_transaction_blob. split.
  - destruct (truthy transaction) eqn:T; [|auto].
    destruct (is_dict transaction) eqn:D; [|auto].
    cbn [negb orb]. intros H.
    apply bind_ok in H as (d & _ & H). apply bind_ok in H as (td & _ & H).
    injection H as H. discriminate H.
  - intros [-> | ->]; [reflexivity|]. now rewrite orb_true_r.
Qed.

End Tables.

Lemma rows_match_headers_witness :
  exists rows1 rows2 st3 st4,
    transaction_table sample_repr sample_transaction_fields = Ok rows1 /\
    deposit_table sample_entries = Ok rows2 /\
    flagged_rows position_row sample_positions = Ok st3 /\
    flagged_rows (balance_row sample_repr) sample_idle_assets = Ok st4 /\
    Forall (fun r => List.length r = List.length transaction_headers) rows1 /\
    Forall (fun r => List.length r = List.length deposit_headers) rows2 /\
    Forall (fun r => List.length r = List.length position_headers) (snd st3) /\
    Forall (fun r => List.length r = List.length balance_headers) (snd st4).
Proof.
  do 4 eexists.
  assert (H1 : transaction_table sample_repr sample_transaction_fields = Ok _)
    by (vm_compute; reflexivity).
  assert (H2 : deposit_table sample_entries = Ok _) by (vm_compute; reflexivity).
  assert (H3 : flagged_rows position_row sample_positions = Ok _)
    by (vm_compute; reflexivity).
  assert (H4 : flagged_rows (balance_row sample_repr) sample_idle_assets = Ok _)
    by (vm_compute; reflexivity).
  repeat (split; [eassumption|]).
  exact (rows_match_headers sample_repr _ _ _ _ _ _ _ _ H1 H2 H3 H4).
Defined.


(** ** Further properties of the cells *)

Section Cells.

Variable tabulate : list row -> list string -> option (list Z) -> string.
Variable repr : value -> string.

(** X8: the shortened vault name of lines 96 and 131: a name of at most
    [limit] characters is kept; a longer one becomes its first [limit]
    characters and "...", [limit + 3] characters, so a name one or two
    characters over the limit comes out longer than it went in. *)
Theorem vault_name_short_bounds (s : string) (limit : Z) :
  0 <= limit ->
  exists t,
    vault_name_short (VStr s) limit = Ok (VStr t) /\
    (Z.of_nat (String.length s) <= limit -> t = s) /\
    (limit < Z.of_nat (String.length s) ->
     t = str_take (Z.to_nat limit) s ++ "..." /\
     Z.of_nat (String.length t) = limit + 3).
Proof.
  intros H. exists (shortenName s (Z.to_nat limit)).
  split; [now apply vault_name_short_str|]. unfold shortenName.
  destruct (Nat.ltb_spec (Z.to_nat limit) (String.length s)) as [G|G]; split;
    try lia; intros _; [|reflexivity].
  split; [reflexivity|]. rewrite cut_length by lia. lia.
Qed.


(** X10: a float amount is printed to the nearest cent, and a float
    native balance to the nearest millionth followed by the symbol:
    the integer of hundredths (millionths) printed is nearest to the
    exact value of the float. *)
Theorem amounts_are_rounded (sg : bool) (m : positive) (e : Z) (symbol : value) :
  exists n2 n6,
    nearest_scaled 2 m e n2 /\
    nearest_scaled 6 m e n6 /\
    balance_usd_formatted (VFloat (S754_finite sg m e))
    = Ok (VStr ("$" ++ sign_str sg ++ fixed_point 2 n2)) /\
    balance_formatted repr (VFloat (S754_finite sg m e)) symbol
    = Ok (VStr (sign_str sg ++ fixed_point 6 n6 ++ " " ++ str repr symbol)).
Proof.
  exists (scaled 2 m e), (scaled 6 m e).
  split; [apply scaled_nearest|]. split; [apply scaled_nearest|].
  split; [reflexivity|].
  unfold balance_formatted. cbn [truthy to_float bind format_fixed].
  now rewrite app_str_assoc.
Qed.

Lemma deposit_option_row_fields (b : list (string * value)) (o : value) (r : row) :
  deposit_option_row (VDict b) o = Ok r ->
  exists od,
    o = VDict od /\
    opt_dict "asset" b = true /\
    opt_dict "network" od = true /\
    opt_dict "protocol" od = true /\
    opt_dict "apy" od = true.
Proof.
  unfold deposit_option_row. intros H.
  apply bind_ok in H as (asset & Ha & H).
  apply bind_ok in H as (sym & Hsym & H).
  apply bind_ok in H as (asset' & _ & H).
  apply bind_ok in H as (usd & _ & H).
  apply bind_ok in H as (usdf & _ & H).
  apply bind_ok in H as (network & Hn & H).
  apply bind_ok in H as (nname & Hnn & H).
  apply bind_ok in H as (vname & _ & H).
  apply bind_ok in H as (vshort & _ & H).
  apply bind_ok in H as (protocol & Hp & H).
  apply bind_ok in H as (pname & Hpn & H).
  apply bind_ok in H as (apy & Hy & H).
  apply bind_ok in H as (total & Ht & _).
  destruct o as [| | | | | |od]; try discriminate.
  exists od. split; [reflexivity|].
  cbn [get] in Ha, Hn, Hp, Hy.
  injection Ha as <-. injection Hn as <-. injection Hp as <-. injection Hy as <-.
  unfold opt_dict.
  destruct (lookup "asset" b) as [[]|]; try discriminate;
    destruct (lookup "network" od) as [[]|]; try discriminate;
    destruct (lookup "protocol" od) as [[]|]; try discriminate;
    destruct (lookup "apy" od) as [[]|]; try discriminate; auto.
Qed.

Lemma map_result_In {A B} (f : A -> result B) (l : list A) (rs : list B) (x : A) :
  map_result f l = Ok rs -> In x l -> exists r, f x = Ok r.
Proof.
  intros H. apply map_result_Forall2 in H.
  induction H as [|y r l rs Hr F IH]; intros Hin; [destruct Hin|].
  destruct Hin as [<-|Hin]; eauto.
Qed.


End Cells.

Lemma vault_name_short_bounds_witness :
  exists t,
    vault_name_short (VStr "Nineteen characters") 18 = Ok (VStr t) /\
    (Z.of_nat (String.length "Nineteen characters") <= 18 ->
     t = "Nineteen characters") /\
    (18 < Z.of_nat (String.length "Nineteen characters") ->
     t = str_take (Z.to_nat 18) "Nineteen characters" ++ "..." /\
     Z.of_nat (String.length t) = 18 + 3).
Proof.
  apply (vault_name_short_bounds "Nineteen characters" 18). lia.
Defined.



(** ** Further properties of the driver *)

Lemma requests_app (l1 l2 : list event) :
  requests (l1 ++ l2) = (requests l1 ++ requests l2)%list.
Proof. unfold requests. apply flat_map_app. Qed.

(** The shape the four steps share: request, print a header, render,
    print the rendering, return the payload; on any exception print it
    and return a default. *)
Lemma fetch_run (cl : client) (rq : call) (header : string)
    (fmt : value -> result string) (report : exn -> string)
    (default : exn -> value) (log : list event) :
  exists v events,
    try_except
      (x <~ request cl rq ;;
       _ <~ print header ;;
       s <~ lift (fmt x) ;;
       _ <~ print s ;;
       io_ret x)
      (fun error => _ <~ print (report error) ;; io_ret (default error)) log
    = (Ok v, (log ++ Requested rq :: events)%list) /\
    requests events = [] /\
    ((cl rq = Ok v /\ exists s, fmt v = Ok s) \/
     (exists e, v = default e /\
        (cl rq = Raise e \/ exists x, cl rq = Ok x /\ fmt x = Raise e))).
Proof.
  unfold try_except, io_bind, request, print, lift, io_ret.
  destruct (cl rq) as [x|e] eqn:C.
  - destruct (fmt x) as [s|e] eqn:F.
    + exists x, [Printed header; Printed s].
      rewrite <- !app_assoc. repeat split. left. eauto.
    + exists (default e), [Printed header; Printed (report e)].
      rewrite <- !app_assoc. repeat split. right. exists e. eauto.
  - exists (default e), [Printed (report e)].
    rewrite <- !app_assoc. repeat split. right. exists e. auto.
Qed.

Section Runs.

Variable tabulate : list row -> list string -> option (list Z) -> string.
Variable repr : value -> string.
Variable exn_str : exn -> string.
Variable VaultsSdk : string -> client.

Lemma generate_run (cl : client) (vault_address : value) (amount : string)
    (user_address : string) (network asset_address : value) (log : list event) :
  let rq := GetActions "deposit" user_address network vault_address amount
              asset_address false in
  exists v events,
    generate_deposit_transaction_with_asset tabulate repr exn_str cl
      vault_address amount user_address network asset_address log
    = (Ok v, (log ++ Requested rq :: events)%list) /\
    requests events = [] /\
    ((cl rq = Ok v /\ exists s, format_transaction_blob tabulate repr v = Ok s) \/
     (exists e, v = failure_record exn_str e /\
        (cl rq = Raise e \/
         exists x, cl rq = Ok x /\ format_transaction_blob tabulate repr x = Raise e))).
Proof.
  intros rq.
  unfold generate_deposit_transaction_with_asset, try_except, io_bind, request,
    print, lift, io_ret. fold rq. fold (failure_record exn_str).
  destruct (cl rq) as [x|e] eqn:C.
  - destruct (format_transaction_blob tabulate repr x) as [s|e] eqn:F.
    + exists x, [Printed s]. rewrite <- !app_assoc. repeat split. left. eauto.
    + exists (failure_record exn_str e),
        [Printed ("❌ Transaction generation failed: " ++ exn_str e)].
      rewrite <- !app_assoc. repeat split. right. exists e. eauto.
  - exists (failure_record exn_str e),
      [Printed ("❌ Transaction generation failed: " ++ exn_str e)].
    rewrite <- !app_assoc. repeat split. right. exists e. auto.
Qed.

(** X12: [generate_deposit_transaction_with_asset] never raises. It
    sends the request first; it returns the transaction when the
    client returned it and it was rendered, and the failure record of
    the exception otherwise, also when the transaction was generated
    and only its rendering raised. *)
Theorem generate_returns (cl : client) (vault_address : value) (amount : string)
    (user_address : string) (network asset_address : value) (log : list event) :
  let rq := GetActions "deposit" user_address network vault_address amount
              asset_address false in
  exists v events,
    generate_deposit_transaction_with_asset tabulate repr exn_str cl
      vault_address amount user_address network asset_address log
    = (Ok v, (log ++ Requested rq :: events)%list) /\
    requests events = [] /\
    ((cl rq = Ok v /\ exists s, format_transaction_blob tabulate repr v = Ok s) \/
     (exists e, v = failure_record exn_str e /\
        (cl rq = Raise e \/
         exists x, cl rq = Ok x /\ format_transaction_blob tabulate repr x = Raise e))).
Proof.
  exact (generate_run cl vault_address amount user_address network asset_address log).
Qed.

Lemma fetch_steps_run (cl : client) (log : list event) :
  (exists v events,
     get_user_balances tabulate repr exn_str cl log
     = (Ok v, (log ++ Requested (GetIdleAssets USER_ADDRESS) :: events)%list) /\
     requests events = [] /\
     ((cl (GetIdleAssets USER_ADDRESS) = Ok v /\
       exists s, format_user_balances tabulate repr v = Ok s) \/ v = VNone)) /\
  (exists v events,
     get_best_deposit_options tabulate exn_str cl log
     = (Ok v, (log ++ Requested (GetDepositOptions USER_ADDRESS ["USDC"; "USDS"])
                 :: events)%list) /\
     requests events = [] /\
     ((cl (GetDepositOptions USER_ADDRESS ["USDC"; "USDS"]) = Ok v /\
       exists s, format_deposit_options tabulate v = Ok s) \/ v = VNone)) /\
  (exists v events,
     get_user_positions tabulate exn_str cl log
     = (Ok v, (log ++ Requested (GetPositions USER_ADDRESS) :: events)%list) /\
     requests events = [] /\
     ((cl (GetPositions USER_ADDRESS) = Ok v /\
       exists s, format_positions tabulate v = Ok s) \/ v = VNone)).
Proof.
  split; [|split].
  - destruct (fetch_run cl (GetIdleAssets USER_ADDRESS) "💰 User balances:"
                (format_user_balances tabulate repr)
                (fun e => "Error fetching user balances: " ++ exn_str e)
                (fun _ => VNone) log) as (v & ev & E & R & [H|(e & -> & _)]);
      exists v + exists VNone; exists ev; auto.
  - destruct (fetch_run cl (GetDepositOptions USER_ADDRESS ["USDC"; "USDS"])
                "📊 Best deposit options (USDC/USDS only):"
                (format_deposit_options tabulate)
                (fun e => "Error fetching deposit options: " ++ exn_str e)
                (fun _ => VNone) log) as (v & ev & E & R & [H|(e & -> & _)]);
      exists v + exists VNone; exists ev; auto.
  - destruct (fetch_run cl (GetPositions USER_ADDRESS) "💼 User positions:"
                (format_positions tabulate)
                (fun e => "Error fetching user positions: " ++ exn_str e)
                (fun _ => VNone) log) as (v & ev & E & R & [H|(e & -> & _)]);
      exists v + exists VNone; exists ev; auto.
Qed.


End Runs.

Lemma io_bind_lift {A B} (a : A) (k : A -> io B) (log : list event) :
  io_bind (lift (Ok a)) k log = k a log.
Proof. reflexivity. Qed.

Lemma get_field (d : list (string * value)) (k : string) (default : value) :
  get (VDict d) k default = Ok (field_or k d default).
Proof. reflexivity. Qed.

Section Steps.

Variable tabulate : list row -> list string -> option (list Z) -> string.
Variable repr : value -> string.
Variable exn_str : exn -> string.

Lemma deposit_step_absent (cl : client) (top : value) (log : list event) :
  truthy top = false ->
  deposit_step tabulate repr exn_str cl top log
  = (Ok tt, (log ++ [Printed no_options_line])%list).
Proof. intros T. unfold deposit_step. rewrite T. reflexivity. Qed.

Lemma deposit_step_no_balances (cl : client) (d : list (string * value))
    (log : list event) :
  truthy (field_or "userBalances" d (VList [])) = false ->
  deposit_step tabulate repr exn_str cl (VDict d) log
  = (Ok tt, (log ++ [Printed no_options_line])%list).
Proof.
  intros T. destruct (truthy (VDict d)) eqn:Td; [|now apply deposit_step_absent].
  unfold deposit_step. rewrite Td, get_field, io_bind_lift, T. reflexivity.
Qed.

Lemma deposit_step_few (cl : client) (d fa : list (string * value))
    (rest : list value) (n : Z) (log : list event) :
  lookup "userBalances" d = Some (VList (VDict fa :: rest)) ->
  len (field_or "depositOptions" fa (VList [])) = Ok n ->
  n < 3 ->
  deposit_step tabulate repr exn_str cl (VDict d) log
  = (Ok tt, (log ++ [Printed not_enough_line])%list).
Proof.
  intros Lu Ln Hn. unfold deposit_step.
  destruct d as [|kv d]; [discriminate|].
  cbn [truthy]. rewrite get_field. unfold field_or at 1. rewrite Lu.
  rewrite io_bind_lift. cbn [truthy len bind].
  replace (0 <? Z.of_nat (List.length (VDict fa :: rest))) with true
    by (symmetry; apply Z.ltb_lt; simpl List.length; lia).
  rewrite io_bind_lift. cbn [index nth_error]. rewrite io_bind_lift.
  rewrite get_field, io_bind_lift, Ln, io_bind_lift.
  destruct (Z.leb_spec 3 n); [lia|]. reflexivity.
Qed.

(** What a rendered response is: not true, or a mapping whose
    [userBalances] is not true or is a list that starts with a
    mapping whose options were all rendered. *)
Lemma rendered_top_cases (top : value) (s : string) :
  format_deposit_options tabulate top = Ok s ->
  truthy top = false \/
  exists d, top = VDict d /\
    (truthy (field_or "userBalances" d (VList [])) = false \/
     exists fa rest rs,
       lookup "userBalances" d = Some (VList (VDict fa :: rest)) /\
       entry_rows (VDict fa) = Ok rs).
Proof.
  intros H. destruct (truthy top) eqn:T; [right | now left].
  unfold format_deposit_options in H. rewrite T in H. cbn [negb] in H.
  destruct top as [| | | | | |d]; try discriminate H.
  exists d. split; [reflexivity|].
  rewrite !get_field in H. cbn [bind] in H. unfold field_or in *.
  destruct (lookup "userBalances" d) as [v|] eqn:L; [|now left].
  destruct (truthy v) eqn:Tv; [right | now left].
  cbn [negb] in H.
  apply bind_ok in H as (bl & Hbl & H). apply bind_ok in H as (rows & Hrows & _).
  rewrite deposit_table_collect in Hrows.
  apply bind_ok in Hrows as (rss & Hrss & _).
  destruct v as [|b|z|f|str0|l|m]; try discriminate.
  - destruct str0 as [|c str0]; [discriminate|].
    injection Hbl as <-. discriminate Hrss.
  - destruct l as [|x l]; [discriminate|].
    injection Hbl as <-. cbn [map_result] in Hrss.
    apply bind_ok in Hrss as (rs & Hrs & _).
    destruct x as [| | | | | |fa]; try discriminate Hrs. eauto.
  - destruct m as [|[k v] m]; [discriminate|].
    injection Hbl as <-. discriminate Hrss.
Qed.

(** The options of a rendered entry, when there are three or more, are
    a list whose third item is a mapping. *)
Lemma rendered_third_option (fa : list (string * value)) (rs : list row) (n : Z) :
  entry_rows (VDict fa) = Ok rs ->
  len (field_or "depositOptions" fa (VList [])) = Ok n ->
  3 <= n ->
  exists opts od a net,
    lookup "depositOptions" fa = Some (VList opts) /\
    nth_error opts 2 = Some (VDict od) /\
    field_or "asset" fa (VDict []) = VDict a /\
    resolve_network (VDict od) = Ok net.
Proof.
  unfold entry_rows. rewrite get_field. cbn [bind]. intros H Ln Hn.
  apply bind_ok in H as (os & Hos & H).
  assert (F : forall o, In o os -> exists od a net,
            o = VDict od /\ field_or "asset" fa (VDict []) = VDict a /\
            resolve_network o = Ok net).
  { intros o Ho. destruct (map_result_In _ _ _ o H Ho) as [r Hr].
    exact (deposit_option_row_shape fa o r Hr). }
  unfold field_or in Ln, Hos.
  destruct (lookup "depositOptions" fa) as [v|] eqn:L;
    [|cbn [len List.length] in Ln; injection Ln as <-; lia].
  destruct v as [|b|z|f|str0|opts|m]; try discriminate.
  - destruct str0 as [|c str0]; [injection Ln as <-; simpl in Hn; lia|].
    injection Hos as <-.
    destruct (F (VStr (String c "")) (or_introl eq_refl)) as (? & ? & ? & E & _).
    discriminate E.
  - injection Hos as <-. injection Ln as <-.
    destruct opts as [|o0 [|o1 [|o2 opts]]]; try (simpl in Hn; lia).
    destruct (F o2) as (od & a & net & -> & Ha & Hnet); [simpl; auto|].
    exists (o0 :: o1 :: VDict od :: opts), od, a, net. auto.
  - destruct m as [|[k v] m]; [injection Ln as <-; simpl in Hn; lia|].
    injection Hos as <-.
    destruct (F (VStr k) (or_introl eq_refl)) as (? & ? & ? & E & _).
    discriminate E.
Qed.

(** Step 2 after step 1: it never raises, and it sends no request or
    the one deposit request. *)
Lemma deposit_step_run (cl : client) (top : value) (log : list event) :
  (top = VNone \/ exists s, format_deposit_options tabulate top = Ok s) ->
  exists events,
    deposit_step tabulate repr exn_str cl top log = (Ok tt, (log ++ events)%list) /\
    deposit_requests (requests events).
Proof.
  intros H.
  assert (C : truthy top = false \/
              exists d, top = VDict d /\
                (truthy (field_or "userBalances" d (VList [])) = false \/
                 exists fa rest rs,
                   lookup "userBalances" d = Some (VList (VDict fa :: rest)) /\
                   entry_rows (VDict fa) = Ok rs)).
  { destruct H as [->|[s Hs]]; [now left|]. exact (rendered_top_cases top s Hs). }
  clear H. destruct C as [T|(d & -> & [T|(fa & rest & rs & Lu & Hrs)])].
  - rewrite (deposit_step_absent cl top log T). eexists. split; [reflexivity|].
    now left.
  - rewrite (deposit_step_no_balances cl d log T). eexists. split; [reflexivity|].
    now left.
  - assert (Ln : exists n, len (field_or "depositOptions" fa (VList [])) = Ok n).
    { unfold entry_rows in Hrs. rewrite get_field in Hrs. cbn [bind] in Hrs.
      apply bind_ok in Hrs as (os & Hos & _).
      destruct (field_or "depositOptions" fa (VList [])); try discriminate;
        simpl; eauto. }
    destruct Ln as [n Ln]. destruct (Z.lt_ge_cases n 3) as [Hn|Hn].
    + rewrite (deposit_step_few cl d fa rest n log Lu Ln Hn).
      eexists. split; [reflexivity|]. now left.
    + destruct (rendered_third_option fa rs n Hrs Ln Hn)
        as (opts & od & a & net & Lo & Ho & Ha & Hnet).
      rewrite (deposit_step_selects tabulate repr exn_str cl d fa od a rest opts
                 net log Lu Lo Ho Ha Hnet).
      destruct (truthy (field_or "address" od VNone)
                && truthy (field_or "address" a VNone)) eqn:Tadd.
      * destruct (generate_run tabulate repr exn_str cl
                    (field_or "address" od VNone) "1000000" USER_ADDRESS net
                    (field_or "address" a VNone)
                    (log ++ [Printed (generating_line repr od)])%list)
          as (v & ev & E & R & _).
        rewrite (io_bind_ok _ _ _ _ _ E). unfold io_ret.
        eexists. split; [rewrite <- app_assoc; reflexivity|].
        rewrite requests_app. cbn [requests flat_map app]. fold (requests ev).
        rewrite R. right. apply andb_true_iff in Tadd as [T1 T2].
        do 3 eexists. split; [reflexivity|]. auto.
      * unfold io_bind, print. eexists.
        split; [rewrite <- !app_assoc; reflexivity|]. now left.
Qed.

End Steps.

Section WholeRun.

Variable tabulate : list row -> list string -> option (list Z) -> string.
Variable repr : value -> string.
Variable exn_str : exn -> string.
Variable VaultsSdk : string -> client.

(** A run with a key: it returns, its last line is the completion line,
    and its requests are the two fetches, the deposit request if any,
    and the fetch of the positions. *)
Lemma run_with_key (getenv : string -> option string) (c : ascii) (k : string) :
  getenv "VAULTS_FYI_API_KEY" = Some (String c k) ->
  exists l acts,
    run_example_implementation tabulate repr exn_str VaultsSdk getenv []
    = (Ok tt, (l ++ [Printed completion_line])%list) /\
    requests l
    = (GetIdleAssets USER_ADDRESS
       :: GetDepositOptions USER_ADDRESS ["USDC"; "USDS"]
       :: acts ++ [GetPositions USER_ADDRESS])%list /\
    deposit_requests acts.
Proof.
  intros He. unfold run_example_implementation.
  rewrite (io_bind_ok _ _ _ _ _ (print_run _ _)). rewrite He.
  rewrite (io_bind_ok _ _ _ _ _ (print_run _ _)).
  set (cl := VaultsSdk (String c k)).
  match goal with
  | |- context [io_bind (get_user_balances _ _ _ _) _ ?log] =>
      destruct (fetch_steps_run tabulate repr exn_str cl log)
        as ((v1 & ev1 & E1 & R1 & _) & _)
  end.
  rewrite (io_bind_ok _ _ _ _ _ E1).
  rewrite (io_bind_ok _ _ _ _ _ (print_run _ _)).
  match goal with
  | |- context [io_bind (get_best_deposit_options _ _ _) _ ?log] =>
      destruct (fetch_steps_run tabulate repr exn_str cl log)
        as (_ & (top & ev2 & E2 & R2 & Htop) & _)
  end.
  rewrite (io_bind_ok _ _ _ _ _ E2).
  match goal with
  | |- context [io_bind (deposit_step _ _ _ _ _) _ ?log] =>
      destruct (deposit_step_run tabulate repr exn_str cl top log)
        as (ev3 & E3 & R3)
  end.
  { destruct Htop as [[_ Hs]| ->]; auto. }
  rewrite (io_bind_ok _ _ _ _ _ E3).
  rewrite (io_bind_ok _ _ _ _ _ (print_run _ _)).
  match goal with
  | |- context [io_bind (get_user_positions _ _ _) _ ?log] =>
      destruct (fetch_steps_run tabulate repr exn_str cl log)
        as (_ & _ & (v4 & ev4 & E4 & R4 & _))
  end.
  rewrite (io_bind_ok _ _ _ _ _ E4). rewrite print_run.
  eexists. exists (requests ev3). split; [reflexivity|]. split; [|assumption].
  rewrite !requests_app. cbn [requests flat_map app].
  fold (requests ev1). fold (requests ev2). fold (requests ev4).
  rewrite R1, R2, R4. cbn [app]. rewrite app_nil_r. reflexivity.
Qed.


(** X15: with a key, the requests of a run are, in this order: the
    idle assets, the deposit options for USDC and USDS, at most one
    deposit (of 1000000 units, for the fixed user, not simulated, with
    a vault address and an asset address that are true), and the
    positions, which are fetched whatever happened before. *)
Theorem run_requests (getenv : string -> option string) (c : ascii) (k : string) :
  getenv "VAULTS_FYI_API_KEY" = Some (String c k) ->
  exists acts,
    requests (snd (run_example_implementation tabulate repr exn_str VaultsSdk
                     getenv []))
    = (GetIdleAssets USER_ADDRESS
       :: GetDepositOptions USER_ADDRESS ["USDC"; "USDS"]
       :: acts ++ [GetPositions USER_ADDRESS])%list /\
    deposit_requests acts.
Proof.
  intros He. destruct (run_with_key getenv c k He) as (l & acts & E & R & D).
  exists acts. split; [|assumption].
  rewrite E. cbn [snd]. rewrite requests_app, R.
  cbn [requests flat_map app]. now rewrite app_nil_r.
Qed.

(** X16: without a key, missing or empty, a run prints its banner and
    the line that asks for the key, and sends no request. *)
Theorem run_without_key (getenv : string -> option string) :
  getenv "VAULTS_FYI_API_KEY" = None \/ getenv "VAULTS_FYI_API_KEY" = Some "" ->
  run_example_implementation tabulate repr exn_str VaultsSdk getenv []
  = (Ok tt,
     [Printed ("🔷 ===== Vaults.fyi Python SDK Example Implementation ===== 🔷" ++ nl);
      Printed "Please set VAULTS_FYI_API_KEY environment variable"]).
Proof.
  intros [He|He]; unfold run_example_implementation; rewrite He; reflexivity.
Qed.

(** X17: step 2 when step 1 gave nothing to choose from: without a
    response, or with a response whose [userBalances] is missing or
    empty, it prints that no deposit options are available; when the
    first entry is a mapping with fewer than three deposit options it
    prints that there are not enough; it sends no request. *)
Theorem deposit_step_without_selection (cl : client)
    (d d' fa : list (string * value)) (rest opts : list value) (log : list event) :
  truthy (field_or "userBalances" d (VList [])) = false ->
  lookup "userBalances" d' = Some (VList (VDict fa :: rest)) ->
  field_or "depositOptions" fa (VList []) = VList opts ->
  (List.length opts < 3)%nat ->
  deposit_step tabulate repr exn_str cl VNone log
  = (Ok tt, (log ++ [Printed no_options_line])%list) /\
  deposit_step tabulate repr exn_str cl (VDict d) log
  = (Ok tt, (log ++ [Printed no_options_line])%list) /\
  deposit_step tabulate repr exn_str cl (VDict d') log
  = (Ok tt, (log ++ [Printed not_enough_line])%list).
Proof.
  intros T Lu Lo Hn. split; [|split].
  - now apply deposit_step_absent.
  - now apply deposit_step_no_balances.
  - apply (deposit_step_few tabulate repr exn_str cl d' fa rest
             (Z.of_nat (List.length opts)) log Lu); [|lia].
    now rewrite Lo.
Qed.

End WholeRun.

Lemma run_requests_witness :
  exists acts,
    requests (snd (run_example_implementation sample_tabulate sample_repr
                     sample_exn_str
                     (fun _ => sample_client (VDict sample_deposit_fields))
                     sample_getenv []))
    = (GetIdleAssets USER_ADDRESS
       :: GetDepositOptions USER_ADDRESS ["USDC"; "USDS"]
       :: acts ++ [GetPositions USER_ADDRESS])%list /\
    deposit_requests acts.
Proof.
  apply (run_requests sample_tabulate sample_repr sample_exn_str
           (fun _ => sample_client (VDict sample_deposit_fields)) sample_getenv
           "k" "ey").
  reflexivity.
Defined.

Lemma run_without_key_witness :
  run_example_implementation sample_tabulate sample_repr sample_exn_str
    (fun _ => sample_client VNone) (fun _ => None) []
  = (Ok tt,
     [Printed ("🔷 ===== Vaults.fyi Python SDK Example Implementation ===== 🔷" ++ nl);
      Printed "Please set VAULTS_FYI_API_KEY environment variable"]).
Proof.
  apply (run_without_key sample_tabulate sample_repr sample_exn_str
           (fun _ => sample_client VNone) (fun _ => None)).
  left. reflexivity.
Defined.

Lemma deposit_step_without_selection_witness :
  deposit_step sample_tabulate sample_repr sample_exn_str (sample_client VNone)
    VNone []
  = (Ok tt, ([] ++ [Printed no_options_line])%list) /\
  deposit_step sample_tabulate sample_repr sample_exn_str (sample_client VNone)
    (VDict [("userBalances", VList [])]) []
  = (Ok tt, ([] ++ [Printed no_options_line])%list) /\
  deposit_step sample_tabulate sample_repr sample_exn_str (sample_client VNone)
    (VDict [("userBalances", VList [VDict [("asset", sample_asset)]])]) []
  = (Ok tt, ([] ++ [Printed not_enough_line])%list).
Proof.
  apply (deposit_step_without_selection sample_tabulate sample_repr sample_exn_str
           (sample_client VNone)
           [("userBalances", VList [])]
           [("userBalances", VList [VDict [("asset", sample_asset)]])]
           [("asset", sample_asset)] [] []).
  - reflexivity.
  - reflexivity.
  - reflexivity.
  - simpl. lia.
Defined.

(** ** All or nothing *)

Lemma map_result_raises {A B} (f : A -> result B) (l : list A) (x : A) (e : exn) :
  In x l -> f x = Raise e -> exists e', map_result f l = Raise e'.
Proof.
  induction l as [|y l IH]; intros Hin Hx; [destruct Hin|].
  cbn [map_result]. destruct (f y) as [r|e0] eqn:Fy; [|simpl; eauto].
  destruct Hin as [->|Hin]; [congruence|].
  destruct (IH Hin Hx) as [e' ->]. simpl. eauto.
Qed.

Section AllOrNothing.

Variable tabulate : list row -> list string -> option (list Z) -> string.
Variable repr : value -> string.

(** X18: no table is ever partial: when the row of one position, of
    one idle asset, or of one deposit option of one balance entry
    raises, the formatter raises and renders nothing, whatever the
    other entries are. *)
Theorem one_bad_row_fails_the_table
    (d1 d2 d3 : list (string * value)) (positions assets entries : list value)
    (p a b o : value) (e1 e2 e3 : exn) :
  lookup "data" d1 = Some (VList positions) ->
  In p positions ->
  position_row p = Raise e1 ->
  lookup "data" d2 = Some (VList assets) ->
  In a assets ->
  balance_row repr a = Raise e2 ->
  lookup "userBalances" d3 = Some (VList entries) ->
  In b entries ->
  In o (options_of b) ->
  deposit_option_row b o = Raise e3 ->
  (exists e, format_positions tabulate (VDict d1) = Raise e) /\
  (exists e, format_user_balances tabulate repr (VDict d2) = Raise e) /\
  (exists e, format_deposit_options tabulate (VDict d3) = Raise e).
Proof.
  intros L1 I1 R1 L2 I2 R2 L3 I3 Io R3. split; [|split].
  - destruct positions as [|p0 ps]; [destruct I1|].
    unfold format_positions. rewrite (no_data_list d1 p0 ps L1). cbn [bind].
    rewrite get_field. unfold field_or. rewrite L1. cbn [iter bind].
    rewrite flagged_rows_collect.
    destruct (map_result_raises position_row _ p e1 I1 R1) as [e ->].
    simpl. eauto.
  - destruct assets as [|a0 l]; [destruct I2|].
    unfold format_user_balances. rewrite (no_data_list d2 a0 l L2). cbn [bind].
    rewrite get_field. unfold field_or. rewrite L2. cbn [iter bind].
    rewrite flagged_rows_collect.
    destruct (map_result_raises (balance_row repr) _ a e2 I2 R2) as [e ->].
    simpl. eauto.
  - rewrite (format_deposit_options_rows tabulate d3 entries L3)
      by (intros ->; destruct I3).
    rewrite deposit_table_collect.
    assert (E : exists e, entry_rows b = Raise e).
    { unfold options_of in Io. unfold entry_rows.
      destruct b as [| | | | | |bd]; try (now destruct Io).
      rewrite get_field. unfold field_or.
      destruct (lookup "depositOptions" bd) as [[| | | | |os|]|];
        try (now destruct Io).
      cbn [bind iter]. exact (map_result_raises _ os o e3 Io R3). }
    destruct E as [e E].
    destruct (map_result_raises entry_rows entries b e I3 E) as [e' ->].
    simpl. eauto.
Qed.

(** X19: for a deposit option that was rendered, the driver never takes
    the network as a string (line 297): the network it resolves is
    "mainnet" or the name of the option's network mapping, and when
    that mapping has a name it is the name shown in the Network
    column. *)
Theorem resolved_network_of_rendered_option
    (fa od : list (string * value)) (r : row) :
  deposit_option_row (VDict fa) (VDict od) = Ok r ->
  is_str (field_or "network" od VNone) = false /\
  exists net,
    resolve_network (VDict od) = Ok net /\
    (lookup "network" od = None -> net = VStr "mainnet") /\
    (forall n name,
       lookup "network" od = Some (VDict n) ->
       lookup "name" n = Some name ->
       net = name /\ nth_error r 2 = Some name).
Proof.
  intros H.
  pose proof (network_column fa od r H) as Hcol.
  destruct (deposit_option_row_fields fa (VDict od) r H)
    as (od' & [= <-] & _ & Hn & _).
  unfold opt_dict in Hn. unfold resolve_network, field_or.
  rewrite !get_field. unfold field_or. cbn [bind].
  destruct (lookup "network" od) as [[| | | | | |n]|]; try discriminate.
  - split; [reflexivity|].
    destruct n as [|kv n].
    + exists (VStr "mainnet").
      split; [reflexivity|]. split; [discriminate|].
      intros n1 nm [= <-]. discriminate.
    + cbn [truthy is_str is_dict]. rewrite get_field. eexists.
      split; [reflexivity|]. split; [discriminate|].
      intros n1 nm [= <-] Ln. unfold field_or. rewrite Ln in *. auto.
  - split; [reflexivity|]. exists (VStr "mainnet").
    split; [reflexivity|]. split; [reflexivity|]. discriminate.
Qed.

End AllOrNothing.

Lemma one_bad_row_fails_the_table_witness :
  (exists e, format_positions sample_tabulate
     (VDict [("data", VList [VDict []; VDict [("name", VNone)]])]) = Raise e) /\
  (exists e, format_user_balances sample_tabulate sample_repr
     (VDict [("data", VList [VDict []; VDict [("balanceUsd", VStr "abc")]])])
     = Raise e) /\
  (exists e, format_deposit_options sample_tabulate text_yield_response = Raise e).
Proof.
  eapply (one_bad_row_fails_the_table sample_tabulate sample_repr).
  - reflexivity.
  - right. left. reflexivity.
  - reflexivity.
  - reflexivity.
  - right. left. reflexivity.
  - reflexivity.
  - reflexivity.
  - left. reflexivity.
  - left. reflexivity.
  - vm_compute. reflexivity.
Defined.

Lemma resolved_network_of_rendered_option_witness :
  is_str (field_or "network"
            [("name", VStr "Vault"); ("network", VDict [("name", VStr "base")])]
            VNone) = false /\
  exists net,
    resolve_network
      (VDict [("name", VStr "Vault"); ("network", VDict [("name", VStr "base")])])
    = Ok net /\
    (lookup "network"
       [("name", VStr "Vault"); ("network", VDict [("name", VStr "base")])] = None ->
     net = VStr "mainnet") /\
    (forall n name,
       lookup "network"
         [("name", VStr "Vault"); ("network", VDict [("name", VStr "base")])]
       = Some (VDict n) ->
       lookup "name" n = Some name ->
       net = name /\
       nth_error [VStr "N/A"; VStr "N/A"; VStr "base"; VStr "Vault"; VStr "N/A";
                  VStr "N/A"] 2 = Some name).
Proof.
  apply (resolved_network_of_rendered_option []
           [("name", VStr "Vault"); ("network", VDict [("name", VStr "base")])]).
  reflexivity.
Defined.

